(** * VSmileEmu-Android: the native bridge, embedded and verified

    A shallow embedding of the two bridge layers of the repository,
    [android_bridge/jni_bridge.cpp] (the JNI entry points around the global
    [g_vsmile]) and [android_bridge/android_emulator.cpp] (the
    [AndroidEmulator] wrapper class), with the properties their
    specification states about them.

    Conventions.
    - Fixed-width integers are [Z] with the wrap-around written out
      ([Int.u16], [Int.s16], [Int.s32], [Int.s64]).
    - [float] is IEEE 754 binary32, through the Standard Library's
      [SpecFloat] operations at precision 24 and exponent bound 128.
    - Byte buffers ([std::vector<uint8_t>], JNI arrays) are [list Z];
      a raw [const uint8_t*] is a nullable view [option (Z -> Z)] of the
      bytes readable behind it; the core's ROM arrays
      ([std::array<word_t, N>]) are functions from word index to word.
    - Log output ([LOGI], [LOGE]) is not part of the state. *)

From Stdlib Require Import ZArith Lia List Bool.
From Stdlib Require Import Floats.SpecFloat.
From stdpp Require Import base list.
Import ListNotations.

#[local] Open Scope Z_scope.

(** ** Fixed-width integers *)

Module Int.

(** [uint8_t], [uint16_t]: reduction modulo 2^8 and 2^16. *)
Definition u8 (z : Z) : Z := z mod 256.
Definition u16 (z : Z) : Z := z mod 65536.

(** [static_cast<int16_t>]: the two's complement reading of the low
    sixteen bits. *)
Definition s16 (z : Z) : Z := (z + 32768) mod 65536 - 32768.

(** [int] and [long long] (two's complement, 32 and 64 bits). *)
Definition s32 (z : Z) : Z := (z + 2147483648) mod 4294967296 - 2147483648.
Definition s64 (z : Z) : Z :=
  (z + 9223372036854775808) mod 18446744073709551616 - 9223372036854775808.

Definition INT_MAX : Z := 2147483647.

End Int.

(** ** Single-precision floating point *)

Module F32.

Definition prec : Z := 24.
Definition emax : Z := 128.

Definition float : Type := spec_float.

(** Conversion of an integer ([int], [long long]) to [float], rounding
    to nearest even. *)
Definition of_Z (z : Z) : float := binary_normalize prec emax z 0 false.

Definition mul : float -> float -> float := SFmul prec emax.
Definition div : float -> float -> float := SFdiv prec emax.

(** The literals [0.0f] and [1000.0f]. *)
Definition zero : float := S754_zero false.
Definition f1000 : float := of_Z 1000.

(** [0.0f <= x]; false on a NaN. *)
Definition nonneg (x : float) : bool := SFleb zero x.

(** Not a NaN, and of sign [s]. *)
Definition signed_as (s : bool) (x : float) : Prop :=
  match x with
  | S754_zero s' | S754_infinity s' | S754_finite s' _ _ => s' = s
  | S754_nan => False
  end.

End F32.

(** ** Format converter (android_emulator.cpp, jni_bridge.cpp) *)

Definition DISPLAY_WIDTH : Z := 320.
Definition DISPLAY_HEIGHT : Z := 240.
Definition FRAMEBUFFER_SIZE : Z := DISPLAY_WIDTH * DISPLAY_HEIGHT * 2.

(** [src16[i]], [dst16[i] = v] on a byte buffer seen as little-endian
    16-bit words (every Android ABI is little-endian).  A read past the
    end of the list is undefined in the source; here it yields the
    default element of a total lookup, and the theorems on converted
    contents assume buffers of full length. *)
Definition load16 (buf : list Z) (i : nat) : Z :=
  buf !!! (2 * i)%nat + 256 * (buf !!! (2 * i + 1)%nat).

Definition store16 (buf : list Z) (i : nat) (v : Z) : list Z :=
  <[(2 * i + 1)%nat := Int.u8 (v / 256)]> (<[(2 * i)%nat := Int.u8 v]> buf).

(** The body of the loop of [convertFramebufferRGB555toRGB565] for one
    pixel: every intermediate is a [uint16_t]. *)
Definition convert_pixel (color555 : Z) : Z :=
  let r := Int.u16 (Z.land (Z.shiftr color555 10) 0x1F) in
  let g := Int.u16 (Z.land (Z.shiftr color555 5) 0x1F) in
  let b := Int.u16 (Z.land color555 0x1F) in
  let g6 := Int.u16 (Z.lor (Z.shiftl g 1) (Z.shiftr g 4)) in
  let color565 := Int.u16 (Z.lor (Z.lor (Z.shiftl r 11) (Z.shiftl g6 5)) b) in
  color565.

(** [for (size_t i = 0; i < pixelCount; i++) dst16[i] = ...]. *)
Definition convertFramebufferRGB555toRGB565
    (src dst : list Z) (pixelCount : nat) : list Z :=
  fold_left (fun d i => store16 d i (convert_pixel (load16 src i)))
            (seq 0 pixelCount) dst.

(** The conversion of one audio sample in [nativeGetAudioSamples]:
    [static_cast<int16_t>(audio[i] ^ 0x8000)]. *)
Definition convert_sample (u : Z) : Z := Int.s16 (Z.lxor u 0x8000).

(** ** The external emulation core *)

(** Video timing of the core ([enum class VideoTiming]). *)
Inductive VideoTiming : Type := PAL | NTSC.

(** [VSmile::CartType]; the bridge only ever passes [STANDARD]. *)
Inductive CartType : Type := STANDARD.

(** [VSmile::JoyInput]. *)
Module JoyInput.
Record t : Type := mk {
  enter : bool; help : bool; back : bool; abc : bool;
  red : bool; yellow : bool; blue : bool; green : bool;
  x : Z; y : Z }.
End JoyInput.

(** A ROM array of the core, [std::array<word_t, N>] with 16-bit words:
    word index to word. *)
Definition rom : Type := Z -> Z.

(** Modelled from the spec: [VSmile::SysRomType] and [VSmile::CartRomType]
    are declared in the core's header (core/vsmile/vsmile.h), which is not
    part of the bridge sources.  Their sizes are the ones the data model
    and the documentation of [nativeInit] give: a 2 MiB system ROM and an
    8 MiB cartridge slot, in 16-bit words. *)
Definition WORD_BYTES : Z := 2.
Definition SYSROM_WORDS : Z := 0x100000.
Definition CARTROM_WORDS : Z := 0x400000.
Definition SYSROM_BYTES : Z := SYSROM_WORDS * WORD_BYTES.
Definition CARTROM_BYTES : Z := CARTROM_WORDS * WORD_BYTES.

(** Modelled from the spec: the class [VSmile] of the external core, taken
    through the contract of section 6.  Construction may raise (here:
    [None]); every other call is a total state transformer or observer.
    [GetPicture] is a byte sequence, [GetAudio] a sequence of unsigned
    16-bit samples. *)
Class Core : Type := {
  VSmile : Type;
  construct :
    option rom -> rom -> CartType -> option (list Z) -> Z -> bool ->
    VideoTiming -> option VSmile;
  RunFrame : VSmile -> VSmile;
  Reset : VSmile -> VSmile;
  GetPicture : VSmile -> list Z;
  GetAudio : VSmile -> list Z;
  UpdateJoystick : JoyInput.t -> VSmile -> VSmile;
  UpdateOnButton : bool -> VSmile -> VSmile
}.

(** ** ROM preparation shared by both bridges *)

(** A freshly value-initialised (or [fill(0)]-ed) ROM array. *)
Definition zero_rom : rom := fun _ => 0.

(** Assignment to one element of a ROM array, stored as a [word_t]. *)
Definition rom_set (arr : rom) (i v : Z) : rom :=
  fun j => if j =? i then Int.u16 v else arr j.

(** [std::memcpy(arr, src, n)]: the first [n] bytes of the array are
    replaced by the bytes behind [src], little-endian within a word. *)
Definition memcpy_rom (arr : rom) (src : Z -> Z) (n : Z) : rom :=
  fun w =>
    let lo := if 2 * w <? n then Int.u8 (src (2 * w)) else arr w mod 256 in
    let hi := if 2 * w + 1 <? n then Int.u8 (src (2 * w + 1)) else arr w / 256 in
    lo + 256 * hi.

(** The bytes of a JNI array, as the view [GetByteArrayElements] gives. *)
Definition array_view (a : list Z) : Z -> Z :=
  fun i => if i <? 0 then 0 else a !!! Z.to_nat i.

(** The indices of [for (int i = 0xfffc0; i < 0xfffdc; i += 2)]. *)
Definition boot_stub_indices : list Z :=
  map (fun k => 0xfffc0 + 2 * Z.of_nat k) (seq 0 14).

(** The dummy system ROM of [nativeInit]: zero-filled, with the boot stub
    (element [i + 1] set to [0x31] for each index [i] of the loop). *)
Definition dummy_sysrom : rom :=
  fold_left (fun r i => rom_set r (i + 1) 0x31) boot_stub_indices zero_rom.

(** ** The JNI bridge (jni_bridge.cpp)

    An entry point [Java_com_vsmileemu_android_core_EmulatorCore_nativeX]
    is named [nativeX] here, as on the Java side.  The elements of a
    [jbyteArray] are given by their unsigned byte value (the copies are
    [memcpy]s of the representation), those of a [jshortArray] by their
    signed value. *)

Module Jni.
Section WithCore.
Context `{core : Core}.

(** The globals of the translation unit: [g_vsmile] and the
    function-local [static int frame_counter] of [nativeRunFrame]. *)
Record state : Type := mkState {
  g_vsmile : option VSmile;
  frame_counter : Z }.

(** Process start: null [unique_ptr], counter 0. *)
Definition initial : state := mkState None 0.

(** What the bridge needs of [JNIEnv]: whether the allocation of a new
    array of a given length yields an array (rather than [nullptr]). *)
Record JNIEnv : Type := mkEnv { alloc_ok : Z -> bool }.

Definition NewArray (env : JNIEnv) (len : Z) : option (list Z) :=
  if (0 <=? len) && alloc_ok env len
  then Some (replicate (Z.to_nat len) 0) else None.

(** [Set<T>ArrayRegion(arr, 0, len, buf)]. *)
Definition SetArrayRegion (arr : list Z) (len : Z) (buf : list Z) : list Z :=
  take (Z.to_nat len) buf ++ drop (Z.to_nat len) arr.

(** [static_cast<jsize>(n)] of a [size_t]. *)
Definition jsize (n : nat) : Z := Int.s32 (Z.of_nat n).

(** The system ROM block of [nativeInit]: [inl tt] is the early
    [return JNI_FALSE]. *)
Definition prepare_sysrom (sysrom : option (list Z)) : unit + rom :=
  match sysrom with
  | Some bytes =>
      let sysrom_len := Z.of_nat (length bytes) in
      if negb (sysrom_len =? SYSROM_BYTES) then inl tt
      else inr (memcpy_rom zero_rom (array_view bytes) sysrom_len)
  | None => inr dummy_sysrom
  end.

(** [nativeInit].  A [jbyteArray] is a nullable reference.  [cartrom] is
    handed to [GetByteArrayElements] without a null test: for a null
    reference the call has no defined result ([None]).  [cartSize] is
    not read.  A [std::exception] out of the construction is caught and
    turned into [JNI_FALSE]. *)
Definition nativeInit (sysrom cartrom : option (list Z)) (cartSize : Z)
    (usePAL : bool) (s : state) : option (bool * state) :=
  match prepare_sysrom sysrom with
  | inl _ => Some (false, s)
  | inr sysrom_data =>
      match cartrom with
      | None => None
      | Some bytes =>
          let cartrom_len := Z.of_nat (length bytes) in
          if (cartrom_len <=? 0) || (cartrom_len >? CARTROM_BYTES)
          then Some (false, s)
          else
            let cartrom_data :=
              memcpy_rom zero_rom (array_view bytes) cartrom_len in
            let timing := if usePAL then PAL else NTSC in
            match construct (Some sysrom_data) cartrom_data STANDARD None
                            0xe true timing with
            | None => Some (false, s)
            | Some v =>
                Some (true, mkState (Some (Reset v)) (frame_counter s))
            end
      end
  end.

(** [nativeRunFrame]. *)
Definition nativeRunFrame (s : state) : state :=
  match g_vsmile s with
  | None => s
  | Some v => mkState (Some (RunFrame v)) (Int.s32 (frame_counter s + 1))
  end.

(** [nativeGetFrameBuffer]: [None] is [nullptr]. *)
Definition nativeGetFrameBuffer (env : JNIEnv) (s : state)
    : option (list Z) :=
  match g_vsmile s with
  | None => None
  | Some v =>
      let picture := GetPicture v in
      if (length picture =? 0)%nat then NewArray env 0
      else
        match NewArray env (jsize (length picture)) with
        | None => None
        | Some result =>
            Some (SetArrayRegion result (jsize (length picture)) picture)
        end
  end.

(** The conversion loop of [nativeGetAudioSamples] over
    [std::vector<int16_t> converted(audio.size())]. *)
Definition convert_audio (audio : list Z) : list Z :=
  fold_left (fun converted i => <[i := convert_sample (audio !!! i)]> converted)
            (seq 0 (length audio)) (replicate (length audio) 0).

(** [nativeGetAudioSamples]: [None] is [nullptr]. *)
Definition nativeGetAudioSamples (env : JNIEnv) (s : state)
    : option (list Z) :=
  match g_vsmile s with
  | None => None
  | Some v =>
      let audio := GetAudio v in
      match NewArray env (jsize (length audio)) with
      | None => None
      | Some result =>
          let converted := convert_audio audio in
          Some (SetArrayRegion result (jsize (length converted)) converted)
      end
  end.

(** [nativeSendInput]. *)
Definition nativeSendInput
    (enter help back abc red yellow blue green : bool) (joyX joyY : Z)
    (s : state) : state :=
  match g_vsmile s with
  | None => s
  | Some v =>
      let input :=
        JoyInput.mk enter help back abc red yellow blue green joyX joyY in
      mkState (Some (UpdateJoystick input v)) (frame_counter s)
  end.

(** [nativePressOnButton]. *)
Definition nativePressOnButton (pressed : bool) (s : state) : state :=
  match g_vsmile s with
  | Some v => mkState (Some (UpdateOnButton pressed v)) (frame_counter s)
  | None => s
  end.

(** [nativeDestroy]: [g_vsmile.reset()]. *)
Definition nativeDestroy (s : state) : state :=
  mkState None (frame_counter s).

End WithCore.
End Jni.

(** ** The wrapper class (android_emulator.h, android_emulator.cpp) *)

(** [struct ControllerInput]. *)
Module ControllerInput.
Record t : Type := mk {
  enter : bool; help : bool; back : bool; abc : bool;
  red : bool; yellow : bool; blue : bool; green : bool;
  joystickX : Z; joystickY : Z }.
End ControllerInput.

Module AndroidEmulator.
Section WithCore.
Context `{core : Core}.

(** The data members.  A [TimePoint] is the tick count of
    [std::chrono::high_resolution_clock] (nanoseconds in the NDK's
    libc++), a [long long]. *)
Record state : Type := mkState {
  emulator_ : option VSmile;
  framebuffer_ : list Z;
  audioBuffer_ : list Z;
  paused_ : bool;
  lastFrameTime_ : Z;
  currentFPS_ : F32.float;
  frameCount_ : Z;
  fpsUpdateTime_ : Z }.

(** The constructor; [now] is what [Clock::now()] returns. *)
Definition new (now : Z) : state :=
  mkState None (replicate (Z.to_nat FRAMEBUFFER_SIZE) 0) [] false
          now F32.zero 0 now.

(** [initialize].  [std::min] bounds both copies by the size of the
    destination array; nothing is rejected for its size except an empty
    cartridge. *)
Definition initialize (biosData : option (Z -> Z)) (biosSize : Z)
    (romData : option (Z -> Z)) (romSize : Z) (timing : VideoTiming)
    (s : state) : bool * state :=
  match romData with
  | None => (false, s)
  | Some rom_bytes =>
      if romSize =? 0 then (false, s)
      else
        let sysRom :=
          match biosData with
          | Some bios_bytes =>
              if 0 <? biosSize then
                let copySize := Z.min biosSize (SYSROM_WORDS * WORD_BYTES) in
                Some (memcpy_rom zero_rom bios_bytes copySize)
              else None
          | None => None
          end in
        let copySize := Z.min romSize (CARTROM_WORDS * WORD_BYTES) in
        let cartRom := memcpy_rom zero_rom rom_bytes copySize in
        match construct sysRom cartRom STANDARD None 0xe true timing with
        | Some v =>
            (true,
             mkState (Some v) (framebuffer_ s) (audioBuffer_ s) (paused_ s)
                     (lastFrameTime_ s) (currentFPS_ s) (frameCount_ s)
                     (fpsUpdateTime_ s))
        | None => (false, s)
        end
  end.

(** The state [initialize] leaves on success. *)
Definition with_core (v : VSmile) (s : state) : state :=
  mkState (Some v) (framebuffer_ s) (audioBuffer_ s) (paused_ s)
          (lastFrameTime_ s) (currentFPS_ s) (frameCount_ s)
          (fpsUpdateTime_ s).

(** The system ROM [initialize] hands to the core. *)
Definition bios_image (biosData : option (Z -> Z)) (biosSize : Z) : option rom :=
  match biosData with
  | Some bios_bytes =>
      if 0 <? biosSize
      then Some (memcpy_rom zero_rom bios_bytes (Z.min biosSize SYSROM_BYTES))
      else None
  | None => None
  end.

(** [duration_cast<milliseconds>] of a tick difference: truncation
    towards zero. *)
Definition duration_cast_ms (ticks : Z) : Z := Z.quot ticks 1000000.

(** The milliseconds [updateFPS] measures since the last update. *)
Definition elapsed_ms (now : Z) (s : state) : Z :=
  duration_cast_ms (Int.s64 (now - fpsUpdateTime_ s)).

(** The value [frameCount * 1000.0f / elapsed] in [float] arithmetic. *)
Definition fps_value (frameCount elapsed : Z) : F32.float :=
  F32.div (F32.mul (F32.of_Z frameCount) F32.f1000) (F32.of_Z elapsed).

(** [updateFPS]; [now] is what [Clock::now()] returns. *)
Definition updateFPS (now : Z) (s : state) : state :=
  let frameCount := Int.s32 (frameCount_ s + 1) in
  let elapsed := elapsed_ms now s in
  if 1000 <=? elapsed then
    mkState (emulator_ s) (framebuffer_ s) (audioBuffer_ s) (paused_ s)
            (lastFrameTime_ s) (fps_value frameCount elapsed) 0 now
  else
    mkState (emulator_ s) (framebuffer_ s) (audioBuffer_ s) (paused_ s)
            (lastFrameTime_ s) (currentFPS_ s) frameCount
            (fpsUpdateTime_ s).

(** [runFrame]; [now] is the clock reading of its [updateFPS]. *)
Definition runFrame (now : Z) (s : state) : state :=
  if paused_ s then s
  else
    match emulator_ s with
    | None => s
    | Some v =>
        let v' := RunFrame v in
        let picture := GetPicture v' in
        let fb :=
          convertFramebufferRGB555toRGB565 picture (framebuffer_ s)
            (Z.to_nat (DISPLAY_WIDTH * DISPLAY_HEIGHT)) in
        let audioSpan := GetAudio v' in
        let audio := [] ++ map Int.s16 audioSpan in
        updateFPS now
          (mkState (Some v') fb audio (paused_ s) (lastFrameTime_ s)
                   (currentFPS_ s) (frameCount_ s) (fpsUpdateTime_ s))
    end.

(** [updateInput]. *)
Definition updateInput (input : ControllerInput.t) (s : state) : state :=
  match emulator_ s with
  | None => s
  | Some v =>
      let joyInput :=
        JoyInput.mk (ControllerInput.enter input) (ControllerInput.help input)
          (ControllerInput.back input) (ControllerInput.abc input)
          (ControllerInput.red input) (ControllerInput.yellow input)
          (ControllerInput.blue input) (ControllerInput.green input)
          (ControllerInput.joystickX input)
          (ControllerInput.joystickY input) in
      mkState (Some (UpdateJoystick joyInput v)) (framebuffer_ s)
              (audioBuffer_ s) (paused_ s) (lastFrameTime_ s)
              (currentFPS_ s) (frameCount_ s) (fpsUpdateTime_ s)
  end.

Definition getFramebuffer (s : state) : list Z := framebuffer_ s.
Definition getFramebufferSize (s : state) : Z :=
  Z.of_nat (length (framebuffer_ s)).
Definition getAudioSamples (s : state) : list Z := audioBuffer_ s.
Definition getAudioSampleCount (s : state) : Z :=
  Z.of_nat (length (audioBuffer_ s)).

Definition set_paused (b : bool) (s : state) : state :=
  mkState (emulator_ s) (framebuffer_ s) (audioBuffer_ s) b
          (lastFrameTime_ s) (currentFPS_ s) (frameCount_ s)
          (fpsUpdateTime_ s).

Definition pause (s : state) : state := set_paused true s.
Definition resume (s : state) : state := set_paused false s.

(** [reset]. *)
Definition reset (s : state) : state :=
  match emulator_ s with
  | Some v =>
      mkState (Some (Reset v)) (framebuffer_ s) (audioBuffer_ s) (paused_ s)
              (lastFrameTime_ s) (currentFPS_ s) (frameCount_ s)
              (fpsUpdateTime_ s)
  | None => s
  end.

Definition isPaused (s : state) : bool := paused_ s.
Definition getFPS (s : state) : F32.float := currentFPS_ s.

(** [saveState] and [loadState] are stubs. *)
Definition saveState (s : state) : list Z * state := ([], s).
Definition loadState (data : list Z) (s : state) : bool * state := (false, s).

(** The calls a host can make on an instance, and a run of them. *)
Inductive call : Type :=
| CallInitialize (biosData : option (Z -> Z)) (biosSize : Z)
                 (romData : option (Z -> Z)) (romSize : Z)
                 (timing : VideoTiming)
| CallRunFrame (now : Z)
| CallUpdateInput (input : ControllerInput.t)
| CallPause
| CallResume
| CallReset
| CallSaveState
| CallLoadState (data : list Z).

Definition step (s : state) (c : call) : state :=
  match c with
  | CallInitialize bd bs rd rs t => snd (initialize bd bs rd rs t s)
  | CallRunFrame now => runFrame now s
  | CallUpdateInput i => updateInput i s
  | CallPause => pause s
  | CallResume => resume s
  | CallReset => reset s
  | CallSaveState => snd (saveState s)
  | CallLoadState d => snd (loadState d s)
  end.

Definition run (calls : list call) (s : state) : state :=
  fold_left step calls s.

(** [runFrame] called once per clock reading of [nows], in order. *)
Definition runFrames (nows : list Z) (s : state) : state :=
  fold_left (fun st now => runFrame now st) nows s.

(** Whether a call is a [runFrame] that gets past its guard. *)
Definition steps_core (s : state) (c : call) : bool :=
  match c with
  | CallRunFrame _ =>
      negb (paused_ s) &&
      match emulator_ s with Some _ => true | None => false end
  | _ => false
  end.

(** The number of frames the core was stepped through during a run. *)
Fixpoint frames_stepped (calls : list call) (s : state) : nat :=
  match calls with
  | [] => 0%nat
  | c :: rest =>
      ((if steps_core s c then 1 else 0) + frames_stepped rest (step s c))%nat
  end.

End WithCore.
End AndroidEmulator.

(** ** A small concrete core

    An instance of the core's contract on which the bridge can be run:
    it records what it was built from and counts the calls it receives.
    Its picture is one full frame of a single colour that changes with
    every frame; its audio is four samples. *)

Module ToyCore.

Record machine : Type := mk {
  sysrom : option rom;
  cartrom : rom;
  timing : VideoTiming;
  resets : nat;
  frames : nat;
  joystick : option JoyInput.t;
  on_button : bool }.

Definition picture_of (m : machine) : list Z :=
  replicate (Z.to_nat FRAMEBUFFER_SIZE) (Z.of_nat (frames m) mod 256).

Definition audio_of (m : machine) : list Z :=
  [0; 0xFFFF; 0x8000; Z.of_nat (frames m) mod 65536].

Definition toy : Core := {|
  VSmile := machine;
  construct := fun sys cart _ _ _ _ t => Some (mk sys cart t 0 0 None false);
  RunFrame := fun m =>
    mk (sysrom m) (cartrom m) (timing m) (resets m) (S (frames m))
       (joystick m) (on_button m);
  Reset := fun m =>
    mk (sysrom m) (cartrom m) (timing m) (S (resets m)) 0
       (joystick m) (on_button m);
  GetPicture := picture_of;
  GetAudio := audio_of;
  UpdateJoystick := fun j m =>
    mk (sysrom m) (cartrom m) (timing m) (resets m) (frames m)
       (Some j) (on_button m);
  UpdateOnButton := fun b m =>
    mk (sysrom m) (cartrom m) (timing m) (resets m) (frames m)
       (joystick m) b
|}.

(** A cartridge image of 4096 zero bytes, as a JNI array and as a raw
    buffer. *)
Definition cart4096 : list Z := replicate 4096 0.
Definition zero_bytes : Z -> Z := fun _ => 0.

(** The machine the toy core builds from the dummy system ROM and
    [cart4096], before any reset. *)
Definition built : machine :=
  mk (Some dummy_sysrom)
     (memcpy_rom zero_rom (array_view cart4096) 4096) NTSC 0 0 None false.

(** The machine it builds from no system ROM and 4096 zero bytes behind
    a raw pointer, as [AndroidEmulator::initialize] asks for it. *)
Definition built_by_wrapper : machine :=
  mk None (memcpy_rom zero_rom zero_bytes 4096) NTSC 0 0 None false.

(** A wrapper instance constructed at time 0 and initialised with that
    machine; and a run of calls that never gets a frame out of it. *)
Definition ready : AndroidEmulator.state :=
  AndroidEmulator.with_core (core := toy) built_by_wrapper
    (AndroidEmulator.new 0).

Definition init_call : AndroidEmulator.call :=
  AndroidEmulator.CallInitialize None 0 (Some zero_bytes) 4096 NTSC.

Definition idle_calls : list AndroidEmulator.call :=
  [AndroidEmulator.CallPause; AndroidEmulator.CallRunFrame 7; init_call;
   AndroidEmulator.CallRunFrame 9; AndroidEmulator.CallReset].

(** The globals of the JNI bridge with [built] installed. *)
Definition running : Jni.state := Jni.mkState (core := toy) (Some built) 0.

(** A JNI environment in which every allocation succeeds. *)
Definition env : Jni.JNIEnv := Jni.mkEnv (fun _ => true).

End ToyCore.

(** ** Checkers used by the proofs *)

(** A boolean property checked on [count] consecutive integers from
    [from] holds of each of them. *)
Fixpoint all_from (P : Z -> bool) (from : Z) (count : nat) : bool :=
  match count with
  | O => true
  | S k => P from && all_from P (from + 1) k
  end.

(** What [convert_pixel] computes, in arithmetic: the three 5-bit fields,
    green widened by its top bit, repacked. *)
Definition pixel_fields_ok (p : Z) : bool :=
  let r := (p / 1024) mod 32 in
  let g := (p / 32) mod 32 in
  let b := p mod 32 in
  let g6 := Z.lor (Z.shiftl g 1) (Z.shiftr g 4) in
  (g6 =? 2 * g + g / 16) &&
  (convert_pixel p =? Z.lor (Z.lor (Z.shiftl r 11) (Z.shiftl g6 5)) b) &&
  (convert_pixel p =? r * 2048 + g6 * 32 + b) &&
  (0 <=? convert_pixel p) && (convert_pixel p <? 65536) &&
  (convert_pixel p =? convert_pixel (p mod 32768)) &&
  Bool.eqb (Z.testbit (convert_pixel p) 5) (Z.testbit p 9).

(** What [convert_sample] computes on a 16-bit value: the subtraction of
    32768, whose low sixteen bits are the sample with its top bit
    flipped. *)
Definition sample_ok (u : Z) : bool :=
  (convert_sample u =? u - 32768) &&
  (Int.u16 (convert_sample u) =? Z.lxor u 0x8000) &&
  (Z.lxor (Int.u16 (convert_sample u)) 0x8000 =? u) &&
  (-32768 <=? convert_sample u) && (convert_sample u <=? 32767).

(** ** Readers used to state further properties *)

(** Byte [k] of a ROM array, as the core's memory holds it
    (little-endian words). *)
Definition rom_byte (r : rom) (k : Z) : Z :=
  if Z.even k then r (k / 2) mod 256 else r (k / 2) / 256.

(** The 5-5-5 pixel a 5-6-5 pixel came from: red, the upper five bits of
    green, blue. *)
Definition decode565 (c : Z) : Z :=
  (c / 2048) * 1024 + ((c / 64) mod 32) * 32 + c mod 32.

Definition pixel_lossless_ok (p : Z) : bool :=
  decode565 (convert_pixel p) =? p mod 32768.

(** A sample as [AndroidEmulator::runFrame] stores it against the same
    sample as [nativeGetAudioSamples] returns it. *)
Definition sample_paths_ok (u : Z) : bool :=
  (Int.u16 (Int.s16 u) =? u) &&
  (Z.lxor (Int.u16 (Int.s16 u)) (Int.u16 (convert_sample u)) =? 0x8000) &&
  (Int.s16 u =? (if u <? 32768 then u else u - 65536)).

(** The pause flag a run of calls ends with: the last [pause] or
    [resume] decides. *)
Definition last_pause_flag (calls : list AndroidEmulator.call) (b : bool)
    : bool :=
  fold_left
    (fun flag c =>
       match c with
       | AndroidEmulator.CallPause => true
       | AndroidEmulator.CallResume => false
       | _ => flag
       end) calls b.

(** * Properties *)

(** ** Arithmetic on 16-bit values *)

Lemma all_from_spec (P : Z -> bool) (count : nat) :
  forall from, all_from P from count = true ->
  forall p, from <= p < from + Z.of_nat count -> P p = true.
Proof.
  induction count as [|k IH]; intros from Hall p Hp; [lia |].
  simpl in Hall. apply andb_true_iff in Hall as [Hhere Hrest].
  destruct (Z.eq_dec p from) as [->|Hne]; [exact Hhere |].
  apply (IH (from + 1) Hrest). lia.
Qed.

Lemma forall_u16 (P : Z -> bool) :
  all_from P 0 (Z.to_nat 65536) = true ->
  forall p, 0 <= p < 65536 -> P p = true.
Proof.
  intros Hall p Hp. apply (all_from_spec P _ 0 Hall). lia.
Qed.

Lemma pixel_fields_all : forall p, 0 <= p < 65536 -> pixel_fields_ok p = true.
Proof. apply forall_u16. vm_cast_no_check (eq_refl true). Qed.

Lemma convert_pixel_range p : 0 <= convert_pixel p < 65536.
Proof. unfold convert_pixel, Int.u16. apply Z.mod_pos_bound. lia. Qed.

(** ** The framebuffer as 16-bit words *)

Lemma store16_length buf i v : length (store16 buf i v) = length buf.
Proof. unfold store16. now rewrite !length_insert. Qed.

Lemma load16_store16_eq buf i v :
  (2 * i + 1 < length buf)%nat -> 0 <= v < 65536 ->
  load16 (store16 buf i v) i = v.
Proof.
  intros Hlen Hv. unfold load16, store16.
  rewrite list_lookup_total_insert_ne by lia.
  rewrite list_lookup_total_insert_eq by lia.
  rewrite list_lookup_total_insert_eq by (rewrite length_insert; lia).
  unfold Int.u8.
  rewrite (Z.mod_small (v / 256)) by (split; [apply Z.div_pos | apply Z.div_lt_upper_bound]; lia).
  pose proof (Z.div_mod v 256). lia.
Qed.

Lemma load16_store16_ne buf i j v :
  i <> j -> load16 (store16 buf i v) j = load16 buf j.
Proof.
  intros Hne. unfold load16, store16.
  now rewrite !list_lookup_total_insert_ne by lia.
Qed.

Lemma store16_lookup_other buf i v k :
  (k <> 2 * i)%nat -> (k <> 2 * i + 1)%nat ->
  store16 buf i v !! k = buf !! k.
Proof.
  intros H0 H1. unfold store16.
  now rewrite !list_lookup_insert_ne by lia.
Qed.

(** One more iteration of the conversion loop. *)
Lemma convert_S src dst n :
  convertFramebufferRGB555toRGB565 src dst (S n) =
  store16 (convertFramebufferRGB555toRGB565 src dst n) n
          (convert_pixel (load16 src n)).
Proof.
  unfold convertFramebufferRGB555toRGB565.
  now rewrite seq_S, fold_left_app.
Qed.

Lemma convert_length src dst n :
  length (convertFramebufferRGB555toRGB565 src dst n) = length dst.
Proof.
  induction n as [|n IH]; [reflexivity |].
  now rewrite convert_S, store16_length.
Qed.

(** Every one of the [n] pixels is converted and stored. *)
Lemma convert_pixels src dst n i :
  (2 * n <= length dst)%nat -> (i < n)%nat ->
  load16 (convertFramebufferRGB555toRGB565 src dst n) i =
  convert_pixel (load16 src i).
Proof.
  induction n as [|n IH]; intros Hlen Hi; [lia |].
  rewrite convert_S.
  destruct (Nat.eq_dec i n) as [->|Hne].
  - apply load16_store16_eq; [rewrite convert_length; lia |].
    apply convert_pixel_range.
  - rewrite load16_store16_ne by congruence. apply IH; lia.
Qed.

(** Bytes past the [n] pixels are left alone. *)
Lemma convert_beyond src dst n k :
  (2 * n <= k)%nat ->
  convertFramebufferRGB555toRGB565 src dst n !! k = dst !! k.
Proof.
  induction n as [|n IH]; intros Hk; [reflexivity |].
  rewrite convert_S, store16_lookup_other by lia. apply IH. lia.
Qed.

(** The frame size in numbers. *)
Lemma FRAMEBUFFER_SIZE_eq : FRAMEBUFFER_SIZE = 153600.
Proof. reflexivity. Qed.

Lemma pixel_count_eq :
  Z.to_nat (DISPLAY_WIDTH * DISPLAY_HEIGHT) = Z.to_nat 76800.
Proof. reflexivity. Qed.

(** ** The wrapper class: what a frame does to the buffers *)

Section EmulatorBuffers.
Context `{core : Core}.
Import AndroidEmulator.

Lemma updateFPS_frame now s :
  emulator_ (updateFPS now s) = emulator_ s /\
  framebuffer_ (updateFPS now s) = framebuffer_ s /\
  audioBuffer_ (updateFPS now s) = audioBuffer_ s /\
  paused_ (updateFPS now s) = paused_ s.
Proof. unfold updateFPS. destruct (1000 <=? elapsed_ms now s); auto. Qed.

(** A guarded [runFrame] returns the state it was given. *)
Lemma runFrame_paused now s : paused_ s = true -> runFrame now s = s.
Proof. intros Hp. unfold runFrame. now rewrite Hp. Qed.

Lemma runFrame_no_instance now s : emulator_ s = None -> runFrame now s = s.
Proof. intros He. unfold runFrame. rewrite He. now destruct (paused_ s). Qed.

(** An unguarded [runFrame], buffer by buffer. *)
Lemma runFrame_active now s v :
  paused_ s = false -> emulator_ s = Some v ->
  emulator_ (runFrame now s) = Some (RunFrame v) /\
  framebuffer_ (runFrame now s) =
    convertFramebufferRGB555toRGB565 (GetPicture (RunFrame v))
      (framebuffer_ s) (Z.to_nat (DISPLAY_WIDTH * DISPLAY_HEIGHT)) /\
  audioBuffer_ (runFrame now s) = map Int.s16 (GetAudio (RunFrame v)) /\
  paused_ (runFrame now s) = false.
Proof.
  intros Hp He. unfold runFrame. rewrite Hp, He.
  match goal with |- context [updateFPS now ?st] =>
    destruct (updateFPS_frame now st) as (H1 & H2 & H3 & H4) end.
  rewrite H1, H2, H3, H4.
cbn [emulator_ framebuffer_ audioBuffer_ paused_]. repeat split; reflexivity.
Qed.

Lemma runFrame_fb_length now s :
  length (framebuffer_ (runFrame now s)) = length (framebuffer_ s).
Proof.
  destruct (paused_ s) eqn:Hp; [now rewrite runFrame_paused |].
  destruct (emulator_ s) as [v|] eqn:He; [| now rewrite runFrame_no_instance].
  destruct (runFrame_active now s v Hp He) as (_ & -> & _).
  apply convert_length.
Qed.

Lemma initialize_buffers bd bs rd rs t s :
  framebuffer_ (snd (initialize bd bs rd rs t s)) = framebuffer_ s /\
  audioBuffer_ (snd (initialize bd bs rd rs t s)) = audioBuffer_ s.
Proof.
  unfold initialize. destruct rd as [rom_bytes|]; [| auto].
  destruct (rs =? 0); [auto |].
  match goal with |- context [construct ?a ?b ?c ?d ?e ?f ?g] =>
    destruct (construct a b c d e f g) end; auto.
Qed.

Lemma updateInput_buffers i s :
  framebuffer_ (updateInput i s) = framebuffer_ s /\
  audioBuffer_ (updateInput i s) = audioBuffer_ s.
Proof. unfold updateInput. destruct (emulator_ s); auto. Qed.

Lemma reset_buffers s :
  framebuffer_ (reset s) = framebuffer_ s /\
  audioBuffer_ (reset s) = audioBuffer_ s.
Proof. unfold reset. destruct (emulator_ s); auto. Qed.

(** No call changes the length of the framebuffer. *)
Lemma step_fb_length s c :
  length (framebuffer_ (step s c)) = length (framebuffer_ s).
Proof.
  destruct c; simpl; try reflexivity.
  - now rewrite (proj1 (initialize_buffers _ _ _ _ _ _)).
  - apply runFrame_fb_length.
  - now rewrite (proj1 (updateInput_buffers _ _)).
  - now rewrite (proj1 (reset_buffers _)).
Qed.

Lemma run_fb_length calls : forall s,
  length (framebuffer_ (run calls s)) = length (framebuffer_ s).
Proof.
  induction calls as [|c rest IH]; intros s; [reflexivity |].
  unfold run in *. simpl. now rewrite IH, step_fb_length.
Qed.

(** A call that does not step the core leaves both buffers as they are. *)
Lemma step_idle_buffers s c :
  steps_core s c = false ->
  framebuffer_ (step s c) = framebuffer_ s /\
  audioBuffer_ (step s c) = audioBuffer_ s.
Proof.
  destruct c; simpl; intros Hidle; auto.
  - apply initialize_buffers.
  - destruct (paused_ s) eqn:Hp; [now rewrite runFrame_paused |].
    destruct (emulator_ s) eqn:He; [discriminate |].
    now rewrite runFrame_no_instance.
  - apply updateInput_buffers.
  - apply reset_buffers.
Qed.

Lemma run_idle_buffers calls : forall s,
  frames_stepped calls s = 0%nat ->
  framebuffer_ (run calls s) = framebuffer_ s /\
  audioBuffer_ (run calls s) = audioBuffer_ s.
Proof.
  induction calls as [|c rest IH]; intros s Hnone; [auto |].
  simpl in Hnone.
  destruct (steps_core s c) eqn:Hc; [discriminate |].
  destruct (step_idle_buffers s c Hc) as [Hfb Hau].
  destruct (IH (step s c) Hnone) as [Hfb' Hau'].
  unfold run in *. simpl. rewrite Hfb', Hau'. auto.
Qed.

Lemma new_fb_length now0 :
  Z.of_nat (length (framebuffer_ (new now0))) = FRAMEBUFFER_SIZE.
Proof.
  unfold new. cbn [framebuffer_]. rewrite length_replicate.
  now rewrite Z2Nat.id.
Qed.

End EmulatorBuffers.

(** ** Frame pump and framebuffer of the wrapper class *)

Section EmulatorFrames.
Context `{core : Core}.
Import AndroidEmulator.

(** C4.  Pixel conversion on every 16-bit value [p]: red is bits 14-10,
    green bits 9-5, blue bits 4-0; green is widened to six bits by
    [(g << 1) | (g >> 4)]; the result is [(r << 11) | (g6 << 5) | b], a
    16-bit value that does not depend on the top bit of [p].  Black maps
    to black and [0x7FFF] to [0xFFFF].  An unguarded [runFrame] converts
    each of the 320 x 240 pixels of the picture into the framebuffer,
    whose size stays one full frame. *)
Theorem pixel_conversion_correct :
  (forall p, 0 <= p < 65536 ->
     let r := (p / 1024) mod 32 in
     let g := (p / 32) mod 32 in
     let b := p mod 32 in
     let g6 := Z.lor (Z.shiftl g 1) (Z.shiftr g 4) in
     convert_pixel p = Z.lor (Z.lor (Z.shiftl r 11) (Z.shiftl g6 5)) b /\
     convert_pixel p = r * 2048 + (2 * g + g / 16) * 32 + b /\
     0 <= convert_pixel p < 65536 /\
     convert_pixel p = convert_pixel (p mod 32768)) /\
  convert_pixel 0x0000 = 0x0000 /\
  convert_pixel 0x7FFF = 0xFFFF /\
  (forall now s v,
     paused_ s = false -> emulator_ s = Some v ->
     getFramebufferSize s = FRAMEBUFFER_SIZE ->
     Z.of_nat (length (GetPicture (RunFrame v))) = FRAMEBUFFER_SIZE ->
     getFramebufferSize (runFrame now s) = FRAMEBUFFER_SIZE /\
     forall i, (i < Z.to_nat (320 * 240))%nat ->
       load16 (getFramebuffer (runFrame now s)) i =
       convert_pixel (load16 (GetPicture (RunFrame v)) i)).
Proof.
  split; [| split; [reflexivity | split; [reflexivity |]]].
  - intros p Hp. pose proof (pixel_fields_all p Hp) as H.
    unfold pixel_fields_ok in H. cbv zeta in *.
    rewrite !andb_true_iff in H.
    destruct H as ((((((Hg6 & Hbits) & Harith) & Hlo) & Hhi) & Htop) & _).
    apply Z.eqb_eq in Hg6, Hbits, Harith, Htop.
    apply Z.leb_le in Hlo. apply Z.ltb_lt in Hhi.
    repeat split; try assumption. now rewrite <- Hg6.
  - intros now s v Hp He Hsize _.
    unfold getFramebufferSize, getFramebuffer in *.
    rewrite runFrame_fb_length. split; [exact Hsize |].
    intros i Hi.
    destruct (runFrame_active now s v Hp He) as (_ & -> & _).
    change (DISPLAY_WIDTH * DISPLAY_HEIGHT) with (320 * 240).
    apply convert_pixels; [| exact Hi].
    rewrite FRAMEBUFFER_SIZE_eq in Hsize. lia.
Qed.

(** C6.  [runFrame] returns the very state it was given when the
    instance is paused or holds no core: after [pause], any number of
    [runFrame] calls leaves the whole state (framebuffer, audio buffer,
    FPS value, frame counter, update time and the core itself) as
    [pause] left it. *)
Theorem runFrame_noop_when_paused :
  (forall s nows, runFrames nows (pause s) = pause s) /\
  (forall s nows,
     getFramebuffer (runFrames nows (pause s)) = getFramebuffer s /\
     getAudioSamples (runFrames nows (pause s)) = getAudioSamples s /\
     getFPS (runFrames nows (pause s)) = getFPS s /\
     frameCount_ (runFrames nows (pause s)) = frameCount_ s /\
     fpsUpdateTime_ (runFrames nows (pause s)) = fpsUpdateTime_ s /\
     emulator_ (runFrames nows (pause s)) = emulator_ s) /\
  (forall s now, paused_ s = true -> runFrame now s = s) /\
  (forall s now, emulator_ s = None -> runFrame now s = s).
Proof.
  assert (Hfix : forall s nows, runFrames nows (pause s) = pause s).
  { intros s nows. unfold runFrames.
    induction nows as [|now rest IH]; [reflexivity |].
    cbn [fold_left]. now rewrite (runFrame_paused now (pause s) eq_refl). }
  split; [exact Hfix | split; [| split]].
  - intros s nows. rewrite Hfix. repeat split.
  - intros s now. apply runFrame_paused.
  - intros s now. apply runFrame_no_instance.
Qed.

(** C10.  The framebuffer of an instance is 320 * 240 * 2 = 153600 zero
    bytes at construction and keeps that size through every run of
    calls; as long as no [runFrame] of the run has stepped the core, the
    framebuffer is still all zero and the audio sample count is 0. *)
Theorem framebuffer_fixed_size :
  forall now0 calls,
    getFramebuffer (new now0) = replicate (Z.to_nat 153600) 0 /\
    getAudioSampleCount (new now0) = 0 /\
    getFramebufferSize (run calls (new now0)) = 153600 /\
    (frames_stepped calls (new now0) = 0%nat ->
     getFramebuffer (run calls (new now0)) = replicate (Z.to_nat 153600) 0 /\
     getAudioSampleCount (run calls (new now0)) = 0).
Proof.
  intros now0 calls.
  split; [reflexivity | split; [reflexivity | split]].
  - unfold getFramebufferSize. rewrite run_fb_length. apply new_fb_length.
  - intros Hnone.
    destruct (run_idle_buffers calls (new now0) Hnone) as [Hfb Hau].
    unfold getFramebuffer, getAudioSampleCount. rewrite Hfb, Hau.
    split; reflexivity.
Qed.

End EmulatorFrames.

(** ** Single-precision arithmetic: signs and finiteness *)

Lemma digits2_pos_bounds p :
  2 ^ (Zpos (digits2_pos p) - 1) <= Zpos p < 2 ^ Zpos (digits2_pos p).
Proof.
  induction p as [p IH|p IH|]; cbn [digits2_pos].
  - rewrite Pos2Z.inj_succ. change (Z.pos p~1) with (2 * Z.pos p + 1).
    replace (Z.succ (Zpos (digits2_pos p)) - 1) with (Z.succ (Zpos (digits2_pos p) - 1)) by lia.
    rewrite !Z.pow_succ_r by lia. lia.
  - rewrite Pos2Z.inj_succ. change (Z.pos p~0) with (2 * Z.pos p).
    replace (Z.succ (Zpos (digits2_pos p)) - 1) with (Z.succ (Zpos (digits2_pos p) - 1)) by lia.
    rewrite !Z.pow_succ_r by lia. lia.
  - cbn. lia.
Qed.

Lemma Zdigits2_unique m k :
  1 <= k -> 2 ^ (k - 1) <= m < 2 ^ k -> Zdigits2 m = k.
Proof.
  intros Hk [Hlo Hhi].
  assert (0 < 2 ^ (k - 1)) by (apply Z.pow_pos_nonneg; lia).
  destruct m as [|p|p]; try lia.
  cbn [Zdigits2]. pose proof (digits2_pos_bounds p) as [Dlo Dhi].
  set (D := Zpos (digits2_pos p)) in *.
  destruct (Z.lt_trichotomy D k) as [Hlt|[Heq|Hgt]]; [| exact Heq |].
  - assert (2 ^ D <= 2 ^ (k - 1)) by (apply Z.pow_le_mono_r; lia). lia.
  - assert (2 ^ k <= 2 ^ (D - 1)) by (apply Z.pow_le_mono_r; lia). lia.
Qed.

Lemma shr_1_div2 mrs : 0 <= shr_m mrs -> shr_m (shr_1 mrs) = shr_m mrs / 2.
Proof.
  intros Hm. rewrite <- Z.div2_div.
  destruct mrs as [m r s]. cbn [shr_m] in *.
  destruct m as [|p|p]; [reflexivity | | lia].
  destruct p; reflexivity.
Qed.

Lemma iter_pos_shr_m p : forall mrs,
  0 <= shr_m mrs -> shr_m (SpecFloat.iter_pos shr_1 p mrs) = shr_m mrs / 2 ^ Zpos p.
Proof.
  induction p as [p IH|p IH|]; intros mrs Hm; cbn [SpecFloat.iter_pos].
  - assert (H2 : 0 <= shr_m (shr_1 mrs)) by (rewrite shr_1_div2 by lia; apply Z.div_pos; lia).
    assert (Hp : 0 < 2 ^ Zpos p) by (apply Z.pow_pos_nonneg; lia).
    rewrite IH by (rewrite IH by lia; apply Z.div_pos; lia).
    rewrite IH by lia. rewrite shr_1_div2 by lia.
    rewrite !Z.div_div by lia.
    f_equal. change (Z.pos p~1) with (2 * Z.pos p + 1).
    replace (2 * Zpos p + 1) with (1 + Zpos p + Zpos p) by lia.
    rewrite !Z.pow_add_r by lia. change (2 ^ 1) with 2. lia.
  - assert (Hp : 0 < 2 ^ Zpos p) by (apply Z.pow_pos_nonneg; lia).
    rewrite IH by (rewrite IH by lia; apply Z.div_pos; lia).
    rewrite IH by lia. rewrite !Z.div_div by lia.
    f_equal. change (Z.pos p~0) with (2 * Z.pos p).
    replace (2 * Zpos p) with (Zpos p + Zpos p) by lia.
    rewrite !Z.pow_add_r by lia. lia.
  - rewrite shr_1_div2 by lia. reflexivity.
Qed.

Lemma shr_m_of_loc m l : shr_m (shr_record_of_loc m l) = m.
Proof. destruct l as [|[]]; reflexivity. Qed.

Lemma round_nearest_even_bounds m l :
  m <= round_nearest_even m l <= m + 1.
Proof.
  destruct l as [|[]]; cbn [round_nearest_even]; try lia.
  destruct (Z.even m); lia.
Qed.

(** The mantissa and exponent [shr_fexp] returns at binary32. *)
Lemma shr_fexp_spec m e l :
  0 <= m ->
  let n := Z.max (Zdigits2 m + e - 24) (-149) - e in
  shr_m (fst (shr_fexp 24 128 m e l)) = (if 0 <? n then m / 2 ^ n else m) /\
  snd (shr_fexp 24 128 m e l) = (if 0 <? n then e + n else e).
Proof.
  intros Hm n. unfold shr_fexp, shr.
  change (fexp 24 128 (Zdigits2 m + e) - e) with n.
  destruct n as [|p|p] eqn:En; cbn [fst snd Z.ltb Z.compare].
  - now rewrite shr_m_of_loc.
  - rewrite iter_pos_shr_m by (rewrite shr_m_of_loc; lia).
    now rewrite shr_m_of_loc.
  - now rewrite shr_m_of_loc.
Qed.

Lemma pow2_split a b : 0 <= a -> 0 <= b -> 2 ^ (a + b) = 2 ^ a * 2 ^ b.
Proof. intros. now rewrite Z.pow_add_r. Qed.

(** Rounding a mantissa of at least 24 bits whose value stays below
    2^127 gives a finite, nonzero number of the sign asked for. *)
Lemma round_aux_finite s m e l :
  2 ^ 23 <= m -> -125 <= e -> Zdigits2 m + e <= 127 ->
  exists m' e', binary_round_aux 24 128 s m e l = S754_finite s m' e'.
Proof.
  intros Hm He Hmag.
  assert (Hpos : 0 < m) by (assert (0 < 2 ^ 23) by reflexivity; lia).
  pose proof (shr_fexp_spec m e l (Z.lt_le_incl _ _ Hpos)) as Hspec.
  cbv zeta in Hspec. destruct Hspec as [Hm1 He1].
  assert (Dbounds : 2 ^ (Zdigits2 m - 1) <= m < 2 ^ Zdigits2 m).
  { destruct m as [|p|p]; try lia. apply digits2_pos_bounds. }
  destruct Dbounds as [Dlo Dhi].
  remember (Zdigits2 m) as d eqn:Hd.
  assert (Hd24 : 24 <= d).
  { destruct (Z_lt_le_dec d 24) as [Hlt|]; [| assumption].
    assert (2 ^ d <= 2 ^ 23) by (apply Z.pow_le_mono_r; lia). lia. }
  unfold binary_round_aux.
  replace (Z.max (d + e - 24) (-149) - e) with (d - 24) in Hm1, He1 by lia.
  destruct (shr_fexp 24 128 m e l) as [mrs1 e1]. cbn [fst snd] in Hm1, He1.
  set (m1 := shr_m mrs1) in *.
  assert (Hm1b : 2 ^ 23 <= m1 < 2 ^ 24 /\ e1 = e + d - 24).
  { destruct (0 <? d - 24) eqn:Hn.
    - apply Z.ltb_lt in Hn.
      assert (Hsplit : 2 ^ d = 2 ^ (d - 24) * 2 ^ 24)
        by (rewrite <- pow2_split by lia; f_equal; lia).
      assert (Hsplit' : 2 ^ (d - 1) = 2 ^ (d - 24) * 2 ^ 23)
        by (rewrite <- pow2_split by lia; f_equal; lia).
      assert (0 < 2 ^ (d - 24)) by (apply Z.pow_pos_nonneg; lia).
      subst m1. rewrite Hm1. split; [split | lia].
      + apply Z.div_le_lower_bound; lia.
      + apply Z.div_lt_upper_bound; lia.
    - apply Z.ltb_ge in Hn. assert (Hd' : d = 24) by lia.
      rewrite Hd' in Dlo, Dhi. change (2 ^ (24 - 1)) with (2 ^ 23) in Dlo.
      subst m1. rewrite Hm1. lia. }
  destruct Hm1b as [Hm1b He1'].
  pose proof (round_nearest_even_bounds m1 (loc_of_shr_record mrs1)) as Hr.
  set (m2 := round_nearest_even m1 (loc_of_shr_record mrs1)) in *.
  assert (Hm2 : 0 <= m2) by (assert (0 < 2 ^ 23) by reflexivity; lia).
  pose proof (shr_fexp_spec m2 e1 loc_Exact Hm2) as Hspec.
  cbv zeta in Hspec. destruct Hspec as [Hm3 He3].
  assert (Hd2 : Zdigits2 m2 = 24 \/ (Zdigits2 m2 = 25 /\ m2 = 2 ^ 24)).
  { destruct (Z_lt_le_dec m2 (2 ^ 24)) as [Hlt|Hge].
    - left. apply Zdigits2_unique; [lia |].
      change (2 ^ (24 - 1)) with (2 ^ 23). lia.
    - right. assert (m2 = 2 ^ 24) by lia. split; [| assumption].
      apply Zdigits2_unique; [lia |].
      match goal with H : _ = 2 ^ 24 |- _ => rewrite H end.
      change (2 ^ (25 - 1)) with (2 ^ 24). split; [lia | reflexivity]. }
  destruct (shr_fexp 24 128 m2 e1 loc_Exact) as [mrs3 e3].
  cbn [fst snd] in Hm3, He3.
  destruct Hd2 as [Hd2|[Hd2 Hm2eq]]; rewrite Hd2 in Hm3, He3.
  - replace (Z.max (24 + e1 - 24) (-149) - e1) with 0 in Hm3, He3 by lia.
    cbn [Z.ltb Z.compare] in Hm3, He3.
    rewrite Hm3. destruct m2 as [|q|q]; try lia.
    replace (e3 <=? 128 - 24) with true by (symmetry; apply Z.leb_le; lia).
    eauto.
  - replace (Z.max (25 + e1 - 24) (-149) - e1) with 1 in Hm3, He3 by lia.
    cbn [Z.ltb Z.compare] in Hm3, He3.
    rewrite Hm3, Hm2eq. change (2 ^ 24 / 2 ^ 1) with (Zpos (2 ^ 23)%positive).
    cbv iota.
    replace (e3 <=? 128 - 24) with true by (symmetry; apply Z.leb_le; lia).
    eauto.
Qed.

Lemma iter_pos_nonneg p : forall mrs,
  0 <= shr_m mrs -> 0 <= shr_m (SpecFloat.iter_pos shr_1 p mrs).
Proof.
  intros mrs Hm. rewrite iter_pos_shr_m by assumption.
  apply Z.div_pos; [assumption | apply Z.pow_pos_nonneg; lia].
Qed.

Lemma shr_fexp_nonneg prec emax m e l :
  0 <= m -> 0 <= shr_m (fst (shr_fexp prec emax m e l)).
Proof.
  intros Hm. unfold shr_fexp, shr.
  destruct (fexp prec emax (Zdigits2 m + e) - e); cbn [fst].
  - now rewrite shr_m_of_loc.
  - apply iter_pos_nonneg. now rewrite shr_m_of_loc.
  - now rewrite shr_m_of_loc.
Qed.

(** Rounding a non-negative mantissa never gives a NaN, and keeps the
    sign it was asked for. *)
Lemma round_aux_signed prec emax s m e l :
  0 <= m -> F32.signed_as s (binary_round_aux prec emax s m e l).
Proof.
  intros Hm. unfold binary_round_aux.
  pose proof (shr_fexp_nonneg prec emax m e l Hm) as H1.
  destruct (shr_fexp prec emax m e l) as [mrs1 e1]. cbn [fst] in H1.
  pose proof (round_nearest_even_bounds (shr_m mrs1) (loc_of_shr_record mrs1)) as Hr.
  set (m2 := round_nearest_even (shr_m mrs1) (loc_of_shr_record mrs1)) in *.
  assert (Hm2 : 0 <= m2) by lia.
  pose proof (shr_fexp_nonneg prec emax m2 e1 loc_Exact Hm2) as H3.
  destruct (shr_fexp prec emax m2 e1 loc_Exact) as [mrs3 e3]. cbn [fst] in H3.
  destruct (shr_m mrs3) as [|q|q]; [reflexivity | | lia].
  destruct (e3 <=? emax - prec); reflexivity.
Qed.

Lemma Pos_iter_xO p k : Zpos (Pos.iter xO p k) = Zpos p * 2 ^ Zpos k.
Proof.
  induction k as [|k IH] using Pos.peano_ind.
  - cbn [Pos.iter]. change (2 ^ 1) with 2. lia.
  - rewrite Pos.iter_succ, Pos2Z.inj_succ, Z.pow_succ_r by lia.
    change (Zpos (Pos.iter xO p k)~0) with (2 * Zpos (Pos.iter xO p k)).
    rewrite IH. lia.
Qed.

(** An integer between 1 and 2^127 converts to a finite, positive float. *)
Lemma of_Z_pos_finite z :
  0 < z < 2 ^ 127 -> exists m e, F32.of_Z z = S754_finite false m e.
Proof.
  intros [Hlo Hhi]. destruct z as [|p|p]; try lia.
  unfold F32.of_Z, F32.prec, F32.emax, binary_normalize, binary_round.
  pose proof (digits2_pos_bounds p) as [Dlo Dhi].
  unfold shl_align, fexp, emin.
  set (d := Zpos (digits2_pos p)) in *.
  assert (Hd1 : 1 <= d) by (subst d; lia).
  assert (Hd127 : d <= 127).
  { destruct (Z_lt_le_dec 127 d) as [Hgt|]; [| assumption].
    assert (2 ^ 127 <= 2 ^ (d - 1)) by (apply Z.pow_le_mono_r; lia). lia. }
  replace (Z.max (d + 0 - 24) (3 - 128 - 24) - 0) with (d - 24) by lia.
  replace (Z.max (d + 0 - 24) (3 - 128 - 24)) with (d - 24) by lia.
  destruct (d - 24) as [|k|k] eqn:Hk.
  - apply round_aux_finite; [| lia |].
    + assert (Hd : d = 24) by lia. rewrite Hd in Dlo.
      change (2 ^ (24 - 1)) with (2 ^ 23) in Dlo. exact Dlo.
    + cbn [Zdigits2]. fold d. lia.
  - apply round_aux_finite; [| lia |].
    + assert (2 ^ 23 <= 2 ^ (d - 1)) by (apply Z.pow_le_mono_r; lia). lia.
    + cbn [Zdigits2]. fold d. lia.
  - assert (Hsplit : 2 ^ 24 = 2 ^ d * 2 ^ Zpos k)
      by (rewrite <- pow2_split by lia; f_equal; lia).
    assert (Hsplit' : 2 ^ 23 = 2 ^ (d - 1) * 2 ^ Zpos k)
      by (rewrite <- pow2_split by lia; f_equal; lia).
    assert (0 < 2 ^ Zpos k) by (apply Z.pow_pos_nonneg; lia).
    assert (Hmz : 2 ^ 23 <= Zpos (Pos.iter xO p k) < 2 ^ 24).
    { rewrite Pos_iter_xO, Hsplit, Hsplit'. split.
      - apply Z.mul_le_mono_nonneg_r; lia.
      - apply Z.mul_lt_mono_pos_r; lia. }
    apply round_aux_finite; [lia | lia |].
    rewrite (Zdigits2_unique (Zpos (Pos.iter xO p k)) 24); [lia | lia |].
    change (2 ^ (24 - 1)) with (2 ^ 23). exact Hmz.
Qed.

Lemma signed_false_nonneg x :
  F32.signed_as false x -> F32.nonneg x = true.
Proof. destruct x as [s|s| |s m e]; cbn; intros H; subst; easy. Qed.

Lemma of_Z_signed z : 0 <= z -> F32.signed_as false (F32.of_Z z).
Proof.
  intros Hz. destruct z as [|p|p]; [reflexivity | | lia].
  unfold F32.of_Z, F32.prec, F32.emax, binary_normalize, binary_round.
  destruct (shl_align p 0 (fexp 24 128 (Zpos (digits2_pos p) + 0))) as [mz ez].
  apply round_aux_signed. lia.
Qed.

Lemma mul_signed x my ey :
  F32.signed_as false x ->
  F32.signed_as false (F32.mul x (S754_finite false my ey)).
Proof.
  unfold F32.mul, F32.prec, F32.emax.
  destruct x as [s|s| |s m e]; cbn [F32.signed_as SFmul]; intros H; subst;
    try easy.
  apply round_aux_signed. lia.
Qed.

Lemma div_signed x my ey :
  F32.signed_as false x ->
  F32.signed_as false (F32.div x (S754_finite false my ey)).
Proof.
  unfold F32.div, F32.prec, F32.emax.
  destruct x as [s|s| |s m e]; cbn [F32.signed_as SFdiv]; intros H; subst;
    try easy.
  unfold SFdiv_core_binary.
  match goal with |- context [Z.div_eucl ?a ?b] =>
    assert (Hq : 0 <= a / b);
    [| unfold Z.div in Hq; destruct (Z.div_eucl a b) as [q r] ] end.
  - apply Z.div_pos; [| lia].
    match goal with |- 0 <= match ?sh with _ => _ end =>
      destruct sh; [lia | apply Z.shiftl_nonneg; lia | lia] end.
  - apply round_aux_signed. exact Hq.
Qed.

(** The FPS value of a non-negative frame count over a positive number
    of milliseconds is a non-negative float (in particular not a NaN). *)
Lemma fps_value_nonneg fc el :
  0 <= fc -> 0 < el < 2 ^ 127 ->
  F32.nonneg (AndroidEmulator.fps_value fc el) = true.
Proof.
  intros Hfc Hel. apply signed_false_nonneg.
  unfold AndroidEmulator.fps_value, F32.f1000.
  destruct (of_Z_pos_finite el Hel) as (my & ey & ->).
  apply div_signed.
  destruct (of_Z_pos_finite 1000) as (m & e & ->); [split; reflexivity |].
  apply mul_signed. apply of_Z_signed. exact Hfc.
Qed.

(** ** The FPS counter of the wrapper class *)

Section FpsCounter.
Context `{core : Core}.
Import AndroidEmulator.

Lemma s32_small z : -2147483648 <= z <= Int.INT_MAX -> Int.s32 z = z.
Proof.
  unfold Int.s32, Int.INT_MAX. intros Hz. rewrite Z.mod_small; lia.
Qed.

(** A measured time of a second or more is a positive 64-bit count. *)
Lemma elapsed_ms_bounds now s :
  1000 <= elapsed_ms now s -> 0 < elapsed_ms now s < 2 ^ 127.
Proof.
  unfold elapsed_ms, duration_cast_ms, Int.s64.
  set (a := (now - fpsUpdateTime_ s + 9223372036854775808)
              mod 18446744073709551616 - 9223372036854775808).
  assert (Ha : -9223372036854775808 <= a < 9223372036854775808).
  { subst a.
    pose proof (Z.mod_pos_bound (now - fpsUpdateTime_ s + 9223372036854775808)
                  18446744073709551616 eq_refl). lia. }
  clearbody a. intros Hq.
  assert (H127 : 9223372036854775808 < 2 ^ 127) by reflexivity.
  pose proof (Z.quot_rem' a 1000000) as Hqr.
  pose proof (Z.rem_bound_abs a 1000000). lia.
Qed.

Lemma updateFPS_recompute now s :
  1000 <= elapsed_ms now s ->
  currentFPS_ (updateFPS now s) =
    fps_value (Int.s32 (frameCount_ s + 1)) (elapsed_ms now s) /\
  frameCount_ (updateFPS now s) = 0 /\
  fpsUpdateTime_ (updateFPS now s) = now.
Proof.
  intros Hel. unfold updateFPS.
  replace (1000 <=? elapsed_ms now s) with true
    by (symmetry; apply Z.leb_le; exact Hel).
  repeat split.
Qed.

Lemma updateFPS_keep now s :
  elapsed_ms now s < 1000 ->
  currentFPS_ (updateFPS now s) = currentFPS_ s /\
  frameCount_ (updateFPS now s) = Int.s32 (frameCount_ s + 1) /\
  fpsUpdateTime_ (updateFPS now s) = fpsUpdateTime_ s.
Proof.
  intros Hel. unfold updateFPS.
  replace (1000 <=? elapsed_ms now s) with false
    by (symmetry; apply Z.leb_gt; exact Hel).
  repeat split.
Qed.

(** [runFrame] either returns its state or counts the frame the way
    [updateFPS] does on that state. *)
Lemma runFrame_fps_fields now s :
  runFrame now s = s \/
  (steps_core s (CallRunFrame now) = true /\
   currentFPS_ (runFrame now s) = currentFPS_ (updateFPS now s) /\
   frameCount_ (runFrame now s) = frameCount_ (updateFPS now s) /\
   fpsUpdateTime_ (runFrame now s) = fpsUpdateTime_ (updateFPS now s)).
Proof.
  unfold runFrame, steps_core.
  destruct (paused_ s); [now left |].
  destruct (emulator_ s) as [v|]; [right | now left].
  unfold updateFPS, elapsed_ms.
  cbn [currentFPS_ frameCount_ fpsUpdateTime_ negb andb].
  destruct (1000 <=? _); repeat split.
Qed.

(** A call other than [runFrame] does not touch the FPS counter. *)
Lemma step_other_fps s c :
  (forall now, c <> CallRunFrame now) ->
  currentFPS_ (step s c) = currentFPS_ s /\
  frameCount_ (step s c) = frameCount_ s /\
  fpsUpdateTime_ (step s c) = fpsUpdateTime_ s.
Proof.
  intros Hc. destruct c; cbn [step snd saveState loadState pause resume set_paused
                              currentFPS_ frameCount_ fpsUpdateTime_];
    try (repeat split; fail).
  - unfold initialize. destruct romData; [| repeat split].
    destruct (romSize =? 0); [repeat split |].
    match goal with |- context [construct ?a ?b ?c ?d ?e ?f ?g] =>
      destruct (construct a b c d e f g) end; repeat split.
  - now destruct (Hc now).
  - unfold updateInput. destruct (emulator_ s); repeat split.
  - unfold reset. destruct (emulator_ s); repeat split.
Qed.

Lemma updateFPS_nonneg now s :
  F32.nonneg (currentFPS_ s) = true -> 0 <= frameCount_ s < Int.INT_MAX ->
  F32.nonneg (currentFPS_ (updateFPS now s)) = true /\
  0 <= frameCount_ (updateFPS now s) <= frameCount_ s + 1.
Proof.
  intros Hfps Hfc.
  assert (Hs32 : Int.s32 (frameCount_ s + 1) = frameCount_ s + 1)
    by (apply s32_small; unfold Int.INT_MAX in *; lia).
  destruct (Z_lt_le_dec (elapsed_ms now s) 1000) as [Hlt|Hge].
  - destruct (updateFPS_keep now s Hlt) as (-> & -> & _). rewrite Hs32.
    split; [assumption | lia].
  - destruct (updateFPS_recompute now s Hge) as (-> & -> & _). rewrite Hs32.
    split; [| lia].
    apply fps_value_nonneg; [lia | now apply elapsed_ms_bounds].
Qed.

(** The invariant of the counter after at most [n] calls. *)
Lemma step_fps_nonneg s c n :
  F32.nonneg (currentFPS_ s) = true -> 0 <= frameCount_ s <= n ->
  n < Int.INT_MAX ->
  F32.nonneg (currentFPS_ (step s c)) = true /\
  0 <= frameCount_ (step s c) <= n + 1.
Proof.
  intros Hfps Hfc Hn.
  assert (Hother : (forall now, c <> CallRunFrame now) ->
            F32.nonneg (currentFPS_ (step s c)) = true /\
            0 <= frameCount_ (step s c) <= n + 1).
  { intros Hc. destruct (step_other_fps s c Hc) as (-> & -> & _).
    split; [assumption | lia]. }
  destruct c; try (apply Hother; intros now'; discriminate).
  cbn [step].
  destruct (runFrame_fps_fields now s) as [-> | (_ & -> & -> & _)].
  - split; [assumption | lia].
  - destruct (updateFPS_nonneg now s Hfps) as [H1 H2]; [lia |].
    split; [assumption | lia].
Qed.

Lemma run_fps_nonneg calls : forall s n,
  F32.nonneg (currentFPS_ s) = true -> 0 <= frameCount_ s <= n ->
  n + Z.of_nat (length calls) <= Int.INT_MAX ->
  F32.nonneg (currentFPS_ (run calls s)) = true.
Proof.
  induction calls as [|c rest IH]; intros s n Hfps Hfc Hlen; [exact Hfps |].
  cbn [length] in Hlen.
  destruct (step_fps_nonneg s c n Hfps Hfc) as [H1 H2]; [lia |].
  unfold run in *. cbn [fold_left].
  apply (IH (step s c) (n + 1) H1 H2). lia.
Qed.

(** C8.  The FPS value is recomputed exactly when [updateFPS] measures
    1000 ms or more since the last update: it then becomes
    [frameCount * 1000.0f / elapsed] (the count including the current
    frame) and the counter and the timestamp are reset.  Below 1000 ms,
    [getFPS] keeps its value however many frames are run; no other call
    changes it.  The value is never negative: one update keeps it so
    while the int counter does not overflow, and so does every run of
    at most [INT_MAX] calls on a new instance. *)
Theorem fps_recomputed_once_per_second :
  (forall now s, 1000 <= elapsed_ms now s ->
     getFPS (updateFPS now s) =
       F32.div (F32.mul (F32.of_Z (Int.s32 (frameCount_ s + 1))) F32.f1000)
               (F32.of_Z (elapsed_ms now s)) /\
     frameCount_ (updateFPS now s) = 0 /\
     fpsUpdateTime_ (updateFPS now s) = now) /\
  (forall now s, elapsed_ms now s < 1000 ->
     getFPS (updateFPS now s) = getFPS s /\
     frameCount_ (updateFPS now s) = Int.s32 (frameCount_ s + 1) /\
     fpsUpdateTime_ (updateFPS now s) = fpsUpdateTime_ s) /\
  (forall nows s, Forall (fun now => elapsed_ms now s < 1000) nows ->
     getFPS (runFrames nows s) = getFPS s /\
     fpsUpdateTime_ (runFrames nows s) = fpsUpdateTime_ s) /\
  (forall s c, getFPS (step s c) <> getFPS s ->
     exists now, c = CallRunFrame now /\ steps_core s c = true /\
                 1000 <= elapsed_ms now s) /\
  (forall now s, F32.nonneg (getFPS s) = true ->
     0 <= frameCount_ s < Int.INT_MAX ->
     F32.nonneg (getFPS (updateFPS now s)) = true) /\
  (forall now0 calls, Z.of_nat (length calls) <= Int.INT_MAX ->
     F32.nonneg (getFPS (run calls (new now0))) = true).
Proof.
  unfold getFPS. repeat apply conj.
  - intros now s Hel. apply (updateFPS_recompute now s Hel).
  - intros now s Hel. apply (updateFPS_keep now s Hel).
  - intros nows s Hall.
    enough (Hgen : forall s', currentFPS_ s' = currentFPS_ s ->
              fpsUpdateTime_ s' = fpsUpdateTime_ s ->
              currentFPS_ (runFrames nows s') = currentFPS_ s /\
              fpsUpdateTime_ (runFrames nows s') = fpsUpdateTime_ s)
      by (apply Hgen; reflexivity).
    induction Hall as [|now rest Hnow Hrest IH]; intros s' Hf Ht; [now split |].
    unfold runFrames in *. cbn [fold_left]. apply IH.
    + destruct (runFrame_fps_fields now s') as [-> | (_ & -> & _ & _)];
        [exact Hf |].
      destruct (updateFPS_keep now s') as (-> & _); [| exact Hf].
      unfold elapsed_ms in *. now rewrite Ht.
    + destruct (runFrame_fps_fields now s') as [-> | (_ & _ & _ & ->)];
        [exact Ht |].
      destruct (updateFPS_keep now s') as (_ & _ & ->); [| exact Ht].
      unfold elapsed_ms in *. now rewrite Ht.
  - intros s c Hchg.
    destruct c;
      try (exfalso; apply Hchg; apply step_other_fps; intros now'; discriminate).
    exists now. cbn [step] in Hchg.
    destruct (runFrame_fps_fields now s) as [Hsame | (Hsteps & Hfps & _)].
    + exfalso. apply Hchg. now rewrite Hsame.
    + split; [reflexivity | split; [exact Hsteps |]].
      destruct (Z_lt_le_dec (elapsed_ms now s) 1000) as [Hlt|Hge]; [| exact Hge].
      exfalso. apply Hchg. rewrite Hfps.
      apply (updateFPS_keep now s Hlt).
  - intros now s Hfps Hfc. apply (updateFPS_nonneg now s Hfps Hfc).
  - intros now0 calls Hlen.
    apply (run_fps_nonneg calls (new now0) 0); [reflexivity | cbn; lia | lia].
Qed.

End FpsCounter.

(** ** Audio conversion of the JNI bridge *)

Lemma sample_ok_all : forall u, 0 <= u < 65536 -> sample_ok u = true.
Proof. apply forall_u16. vm_cast_no_check (eq_refl true). Qed.

(** The loop after [k] iterations: the first [k] slots hold converted
    samples, the rest is as allocated. *)
Lemma convert_audio_prefix (audio : list Z) (k : nat) : forall (l : list Z),
  (k <= length audio)%nat -> length l = length audio ->
  fold_left (fun converted i => <[i := convert_sample (audio !!! i)]> converted)
            (seq 0 k) l =
  map convert_sample (take k audio) ++ drop k l.
Proof.
  induction k as [|k IH]; intros l Hk Hlen.
  - now rewrite take_0, drop_0.
  - rewrite seq_S, fold_left_app. cbn [fold_left Nat.add].
    rewrite IH by lia.
    destruct (lookup_lt_is_Some_2 audio k) as [a Ha]; [lia |].
    destruct (lookup_lt_is_Some_2 l k) as [x Hx]; [lia |].
    rewrite (list_lookup_total_correct audio k a Ha).
    rewrite (take_S_r audio k a Ha), (drop_S l x k Hx).
    rewrite map_app. cbn [map].
    rewrite insert_app_r_alt; rewrite length_map, length_take; [| lia].
    replace (k - k `min` length audio)%nat with 0%nat by lia.
    cbn [insert list_insert]. now rewrite <- app_assoc.
Qed.

(** The loop converts every sample, in order. *)
Lemma convert_audio_map (audio : list Z) :
  Jni.convert_audio audio = map convert_sample audio.
Proof.
  unfold Jni.convert_audio.
  rewrite convert_audio_prefix by (rewrite ?length_replicate; lia).
  rewrite take_ge by lia. rewrite drop_ge by (rewrite length_replicate; lia).
  apply app_nil_r.
Qed.

(** ** The JNI entry points *)

Section JniEntryPoints.
Context `{core : Core}.

Lemma jsize_small (n : nat) :
  Z.of_nat n <= Int.INT_MAX -> Jni.jsize n = Z.of_nat n.
Proof.
  intros Hn. unfold Jni.jsize. apply s32_small. unfold Int.INT_MAX in *. lia.
Qed.

(** A supplied system ROM of any length but the expected one ends
    [nativeInit] before the cartridge is looked at. *)
Lemma nativeInit_sysrom_mismatch bytes cartrom cartSize usePAL s :
  Z.of_nat (length bytes) <> SYSROM_BYTES ->
  Jni.nativeInit (Some bytes) cartrom cartSize usePAL s = Some (false, s).
Proof.
  intros Hlen. unfold Jni.nativeInit, Jni.prepare_sysrom.
  replace (Z.of_nat (length bytes) =? SYSROM_BYTES) with false
    by (symmetry; apply Z.eqb_neq; exact Hlen).
  reflexivity.
Qed.

(** What [prepare_sysrom] hands on for an absent system ROM and for one
    of the expected length. *)
Lemma prepare_sysrom_absent : Jni.prepare_sysrom None = inr dummy_sysrom.
Proof. reflexivity. Qed.

Lemma prepare_sysrom_exact bytes :
  Z.of_nat (length bytes) = SYSROM_BYTES ->
  Jni.prepare_sysrom (Some bytes) =
  inr (memcpy_rom zero_rom (array_view bytes) SYSROM_BYTES).
Proof.
  intros Hlen. unfold Jni.prepare_sysrom. rewrite Hlen.
  now rewrite Z.eqb_refl.
Qed.

(** An empty or oversized cartridge array is refused, whatever the
    system ROM. *)
Lemma nativeInit_cart_refused sysrom bytes cartSize usePAL s :
  Z.of_nat (length bytes) = 0 \/ CARTROM_BYTES < Z.of_nat (length bytes) ->
  Jni.nativeInit sysrom (Some bytes) cartSize usePAL s = Some (false, s).
Proof.
  intros Hlen. unfold Jni.nativeInit.
  destruct (Jni.prepare_sysrom sysrom) as [[]|sysrom_data]; [reflexivity |].
  replace ((Z.of_nat (length bytes) <=? 0)
           || (Z.of_nat (length bytes) >? CARTROM_BYTES)) with true;
    [reflexivity |].
  symmetry. apply orb_true_iff.
  destruct Hlen as [H0|Hbig]; [left; apply Z.leb_le; lia |].
  right. rewrite Z.gtb_ltb. apply Z.ltb_lt. exact Hbig.
Qed.

(** With an accepted system ROM and a cartridge array of 1 to
    [CARTROM_BYTES] bytes, [nativeInit] does what the construction of
    the core does: on success the global holds the new core, reset. *)
Lemma nativeInit_accepted sysrom sysrom_data bytes cartSize usePAL s :
  Jni.prepare_sysrom sysrom = inr sysrom_data ->
  0 < Z.of_nat (length bytes) <= CARTROM_BYTES ->
  Jni.nativeInit sysrom (Some bytes) cartSize usePAL s =
  match construct (Some sysrom_data)
          (memcpy_rom zero_rom (array_view bytes) (Z.of_nat (length bytes)))
          STANDARD None 0xe true (if usePAL then PAL else NTSC) with
  | Some v => Some (true, Jni.mkState (Some (Reset v)) (Jni.frame_counter s))
  | None => Some (false, s)
  end.
Proof.
  intros Hsys Hlen. unfold Jni.nativeInit. rewrite Hsys.
  replace ((Z.of_nat (length bytes) <=? 0)
           || (Z.of_nat (length bytes) >? CARTROM_BYTES)) with false;
    [reflexivity |].
  symmetry. apply orb_false_iff. split; [apply Z.leb_gt; lia |].
  rewrite Z.gtb_ltb. apply Z.ltb_ge. lia.
Qed.

(** A null cartridge array reaches [GetByteArrayElements] unless the
    system ROM was refused first. *)
Lemma nativeInit_null_cart sysrom sysrom_data cartSize usePAL s :
  Jni.prepare_sysrom sysrom = inr sysrom_data ->
  Jni.nativeInit sysrom None cartSize usePAL s = None.
Proof. intros Hsys. unfold Jni.nativeInit. now rewrite Hsys. Qed.

(** X1.  The only way [nativeInit] returns [JNI_TRUE]: the global then
    holds the freshly constructed core after its [Reset], and the frame
    counter is as before. *)
Lemma nativeInit_true_resets sysrom cartrom cartSize usePAL s s' :
  Jni.nativeInit sysrom cartrom cartSize usePAL s = Some (true, s') ->
  exists sysrom_data cartrom_data v,
    construct (Some sysrom_data) cartrom_data STANDARD None 0xe true
              (if usePAL then PAL else NTSC) = Some v /\
    Jni.g_vsmile s' = Some (Reset v) /\
    Jni.frame_counter s' = Jni.frame_counter s.
Proof.
  unfold Jni.nativeInit.
  destruct (Jni.prepare_sysrom sysrom) as [[]|sysrom_data]; [discriminate |].
  destruct cartrom as [bytes|]; [| discriminate].
  destruct (_ || _); [discriminate |].
  match goal with |- context [construct ?a ?b ?c ?d ?e ?f ?g] =>
    destruct (construct a b c d e f g) as [v|] eqn:Hc end; [| discriminate].
  intros [= <-]. eexists _, _, v. split; [exact Hc |]. split; reflexivity.
Qed.

(** X2.  [nativeInit] never returns [JNI_FALSE] with a changed state:
    whatever makes it fail (a refused size or a construction that
    raises), the globals are as before. *)
Lemma nativeInit_false_unchanged sysrom cartrom cartSize usePAL s s' :
  Jni.nativeInit sysrom cartrom cartSize usePAL s = Some (false, s') -> s' = s.
Proof.
  unfold Jni.nativeInit.
  destruct (Jni.prepare_sysrom sysrom) as [[]|sysrom_data]; [now intros [= <-] |].
  destruct cartrom as [bytes|]; [| discriminate].
  destruct (_ || _); [now intros [= <-] |].
  match goal with |- context [construct ?a ?b ?c ?d ?e ?f ?g] =>
    destruct (construct a b c d e f g) as [v|] end;
    [discriminate | now intros [= <-]].
Qed.

End JniEntryPoints.

(** ** [initialize] of the wrapper class *)

Section WrapperInitialize.
Context `{core : Core}.
Import AndroidEmulator.

Lemma initialize_refused biosData biosSize romData romSize timing s :
  romData = None \/ romSize = 0 ->
  initialize biosData biosSize romData romSize timing s = (false, s).
Proof.
  intros [-> | ->]; unfold initialize; [reflexivity |].
  now destruct romData.
Qed.

(** With a cartridge buffer and a size other than 0, [initialize] does
    what the construction does, on the first [min romSize CARTROM_BYTES]
    bytes of the buffer. *)
Lemma initialize_accepted biosData biosSize rom_bytes romSize timing s :
  romSize <> 0 ->
  initialize biosData biosSize (Some rom_bytes) romSize timing s =
  match construct (bios_image biosData biosSize)
          (memcpy_rom zero_rom rom_bytes (Z.min romSize CARTROM_BYTES))
          STANDARD None 0xe true timing with
  | Some v => (true, with_core v s)
  | None => (false, s)
  end.
Proof.
  intros Hsize. unfold initialize.
  replace (romSize =? 0) with false by (symmetry; apply Z.eqb_neq; exact Hsize).
  reflexivity.
Qed.

End WrapperInitialize.

(** ** Initialisation: what is validated, and where *)

Section Initialisation.
Context `{core : Core}.

(** C1, as the code has it.  [AndroidEmulator::initialize] returns false
    and leaves the instance as it was for a null cartridge buffer and
    for size 0; for every other size it goes on to the construction of
    the core with the first [min romSize CARTROM_BYTES] bytes, so a size
    above the maximum is cut down, not refused.  [nativeInit] returns
    false and leaves the globals as they were for a cartridge array of
    length 0 or above [CARTROM_BYTES]; for every length from 1 to
    [CARTROM_BYTES], with the system ROM absent or of the expected
    length, it succeeds when the construction does. *)
Theorem initialize_cartridge_validation :
  (forall biosData biosSize romData romSize timing s,
     romData = None \/ romSize = 0 ->
     AndroidEmulator.initialize biosData biosSize romData romSize timing s
     = (false, s)) /\
  (forall biosData biosSize rom_bytes romSize timing s v,
     0 < romSize ->
     construct (AndroidEmulator.bios_image biosData biosSize)
       (memcpy_rom zero_rom rom_bytes (Z.min romSize CARTROM_BYTES))
       STANDARD None 0xe true timing = Some v ->
     AndroidEmulator.initialize biosData biosSize (Some rom_bytes) romSize
       timing s
     = (true, AndroidEmulator.with_core v s)) /\
  (forall sysrom bytes cartSize usePAL s,
     Z.of_nat (length bytes) = 0 \/ CARTROM_BYTES < Z.of_nat (length bytes) ->
     Jni.nativeInit sysrom (Some bytes) cartSize usePAL s = Some (false, s)) /\
  (forall sysrom sysrom_data bytes cartSize (usePAL : bool) s v,
     Jni.prepare_sysrom sysrom = inr sysrom_data ->
     0 < Z.of_nat (length bytes) <= CARTROM_BYTES ->
     construct (Some sysrom_data)
       (memcpy_rom zero_rom (array_view bytes) (Z.of_nat (length bytes)))
       STANDARD None 0xe true (if usePAL then PAL else NTSC) = Some v ->
     Jni.nativeInit sysrom (Some bytes) cartSize usePAL s
     = Some (true, Jni.mkState (Some (Reset v)) (Jni.frame_counter s))).
Proof.
  repeat apply conj.
  - intros. now apply initialize_refused.
  - intros biosData biosSize rom_bytes romSize timing s v Hsize Hc.
    rewrite initialize_accepted by lia. now rewrite Hc.
  - intros. now apply nativeInit_cart_refused.
  - intros sysrom sysrom_data bytes cartSize usePAL s v Hsys Hlen Hc.
    rewrite (nativeInit_accepted sysrom sysrom_data) by assumption.
    now rewrite Hc.
Qed.

(** C2, as the code has it.  [nativeInit] compares the length of a
    supplied system ROM with the expected size and, on any difference,
    returns false with the globals untouched.  [AndroidEmulator::initialize]
    makes no such comparison: it copies [min biosSize SYSROM_BYTES] bytes
    and goes on to the construction. *)
Theorem sysrom_size_validation :
  (forall bytes cartrom cartSize usePAL s,
     Z.of_nat (length bytes) <> SYSROM_BYTES ->
     Jni.nativeInit (Some bytes) cartrom cartSize usePAL s = Some (false, s)) /\
  (forall bios_bytes biosSize rom_bytes romSize timing s,
     0 < biosSize -> 0 < romSize ->
     AndroidEmulator.initialize (Some bios_bytes) biosSize (Some rom_bytes)
       romSize timing s
     = match construct
               (Some (memcpy_rom zero_rom bios_bytes
                        (Z.min biosSize SYSROM_BYTES)))
               (memcpy_rom zero_rom rom_bytes (Z.min romSize CARTROM_BYTES))
               STANDARD None 0xe true timing with
       | Some v => (true, AndroidEmulator.with_core v s)
       | None => (false, s)
       end).
Proof.
  split.
  - intros. now apply nativeInit_sysrom_mismatch.
  - intros bios_bytes biosSize rom_bytes romSize timing s Hb Hr.
    rewrite initialize_accepted by lia.
    unfold AndroidEmulator.bios_image.
    now replace (0 <? biosSize) with true by (symmetry; apply Z.ltb_lt; lia).
Qed.

(** C9.  [nativeDestroy] always ends in the state without an instance,
    from any state, the initial one included; a second call, or any
    number of further calls, changes nothing more. *)
Theorem destroy_idempotent :
  forall s,
    Jni.g_vsmile (Jni.nativeDestroy s) = None /\
    Jni.nativeDestroy (Jni.nativeDestroy s) = Jni.nativeDestroy s /\
    (forall n, Nat.iter (S n) Jni.nativeDestroy s = Jni.nativeDestroy s) /\
    Jni.nativeDestroy Jni.initial = Jni.initial.
Proof.
  intros s. repeat split.
  intros n. induction n as [|n IH]; [reflexivity |].
  rewrite Nat.iter_succ, IH. reflexivity.
Qed.

(** C5.  Every unsigned 16-bit sample [u] is converted to [u - 32768],
    the 16-bit pattern [u xor 0x8000]; flipping the top bit of the
    result again gives [u] back; 0x0000 goes to 0x8000 and 0xFFFF to
    0x7FFF.  The array [nativeGetAudioSamples] returns holds the
    converted samples of the core's audio, one for one and in order. *)
Theorem audio_conversion_involutive :
  (forall u, 0 <= u < 65536 ->
     convert_sample u = u - 32768 /\
     Int.u16 (convert_sample u) = Z.lxor u 0x8000 /\
     Z.lxor (Int.u16 (convert_sample u)) 0x8000 = u /\
     -32768 <= convert_sample u <= 32767) /\
  Int.u16 (convert_sample 0x0000) = 0x8000 /\
  Int.u16 (convert_sample 0xFFFF) = 0x7FFF /\
  (forall env s v,
     Jni.g_vsmile s = Some v ->
     Z.of_nat (length (GetAudio v)) <= Int.INT_MAX ->
     Jni.alloc_ok env (Z.of_nat (length (GetAudio v))) = true ->
     Jni.nativeGetAudioSamples env s = Some (map convert_sample (GetAudio v)) /\
     length (map convert_sample (GetAudio v)) = length (GetAudio v) /\
     forall i, (i < length (GetAudio v))%nat ->
       map convert_sample (GetAudio v) !!! i = convert_sample (GetAudio v !!! i)).
Proof.
  split; [| split; [reflexivity | split; [reflexivity |]]].
  - intros u Hu. pose proof (sample_ok_all u Hu) as H.
    unfold sample_ok in H. rewrite !andb_true_iff in H.
    destruct H as ((((H1 & H2) & H3) & H4) & H5).
    apply Z.eqb_eq in H1, H2, H3. apply Z.leb_le in H4, H5.
    repeat split; assumption.
  - intros env s v Hg Hlen Halloc. split; [| split].
    + unfold Jni.nativeGetAudioSamples. rewrite Hg.
      rewrite convert_audio_map, length_map.
      rewrite (jsize_small _ Hlen). unfold Jni.NewArray.
      rewrite Halloc.
      replace (0 <=? Z.of_nat (length (GetAudio v))) with true
        by (symmetry; apply Z.leb_le; lia).
      cbn [andb]. unfold Jni.SetArrayRegion. rewrite Nat2Z.id.
      rewrite take_ge by (rewrite length_map; lia).
      rewrite drop_ge by (rewrite length_replicate; lia).
      now rewrite app_nil_r.
    + apply length_map.
    + intros i Hi.
      destruct (lookup_lt_is_Some_2 (GetAudio v) i Hi) as [a Ha].
      rewrite (list_lookup_total_correct (GetAudio v) i a Ha).
      apply list_lookup_total_correct.
      rewrite list_lookup_fmap, Ha. reflexivity.
Qed.

End Initialisation.

(** ** The dummy system ROM *)

Lemma rom_set_fold (l : list Z) (v : Z) : forall (r : rom) (j : Z),
  fold_left (fun r i => rom_set r (i + 1) v) l r j =
  if existsb (fun i => j =? i + 1) l then Int.u16 v else r j.
Proof.
  induction l as [|i rest IH] using rev_ind; intros r j; [reflexivity |].
  rewrite fold_left_app, existsb_app. cbn [fold_left existsb].
  unfold rom_set at 1. rewrite orb_false_r, IH.
  destruct (j =? i + 1); [now rewrite orb_true_r | now rewrite orb_false_r].
Qed.

(** X3.  The boot stub of [nativeInit]: the fourteen odd words from
    0xfffc1 to 0xfffdb hold 0x31, every other word of the dummy ROM is
    0. *)
Lemma dummy_sysrom_contents (j : Z) :
  dummy_sysrom j =
  if (0xfffc1 <=? j) && (j <=? 0xfffdb) && Z.odd j then 0x31 else 0.
Proof.
  unfold dummy_sysrom. rewrite rom_set_fold.
  change (Int.u16 0x31) with 0x31. change (zero_rom j) with 0.
  destruct ((0xfffc1 <=? j) && (j <=? 0xfffdb) && Z.odd j) eqn:Hin.
  - apply andb_true_iff in Hin as [Hrange Hodd].
    apply andb_true_iff in Hrange as [Hlo Hhi].
    apply Z.leb_le in Hlo, Hhi. apply Z.odd_spec in Hodd as [k Hk].
    replace (existsb _ _) with true; [reflexivity |].
    symmetry. apply existsb_exists. exists (j - 1). split; [| apply Z.eqb_eq; lia].
    unfold boot_stub_indices. apply in_map_iff.
    exists (Z.to_nat (k - 0x7ffe0)). split; [lia | apply in_seq; lia].
  - replace (existsb _ _) with false; [reflexivity |].
    symmetry. apply not_true_is_false. intros Hex.
    apply existsb_exists in Hex as (i & Hi & Hj).
    apply Z.eqb_eq in Hj. unfold boot_stub_indices in Hi.
    apply in_map_iff in Hi as (k & <- & Hk). apply in_seq in Hk.
    assert (Hodd : Z.odd j = true)
      by (apply Z.odd_spec; exists (0x7ffe0 + Z.of_nat k); lia).
    rewrite Hodd, andb_true_r in Hin.
    apply andb_false_iff in Hin as [Hlo|Hhi];
      [apply Z.leb_gt in Hlo | apply Z.leb_gt in Hhi]; lia.
Qed.

(** ** The bridge run on the toy core *)

Section OnToyCore.
#[local] Existing Instance ToyCore.toy.

(** The boot stub of the dummy system ROM: odd words 0xfffc1 to 0xfffdb
    hold 0x31, their neighbours 0. *)
Example dummy_sysrom_stub :
  dummy_sysrom 0xfffc1 = 0x31 /\ dummy_sysrom 0xfffdb = 0x31 /\
  dummy_sysrom 0xfffc0 = 0 /\ dummy_sysrom 0xfffc2 = 0 /\
  dummy_sysrom 0xfffdd = 0 /\ dummy_sysrom 0 = 0.
Proof. repeat split; reflexivity. Qed.

(** Sixty frames counted over one second are 60.0f, fifty over two
    seconds 25.0f. *)
Example fps_value_examples :
  AndroidEmulator.fps_value 60 1000 = F32.of_Z 60 /\
  AndroidEmulator.fps_value 50 2000 = F32.of_Z 25.
Proof. split; vm_compute; reflexivity. Qed.

(** The scenario of the specification: no system ROM, 4096 zero bytes of
    cartridge, NTSC. *)
Example nativeInit_scenario :
  Jni.nativeInit None (Some ToyCore.cart4096) 4096 false Jni.initial =
  Some (true, Jni.mkState (Some (Reset ToyCore.built)) 0).
Proof.
  apply (proj2 (proj2 (proj2 (initialize_cartridge_validation (core := ToyCore.toy))))
           None dummy_sysrom ToyCore.cart4096 4096 false Jni.initial
           ToyCore.built).
  - reflexivity.
  - split; [apply Z.ltb_lt | apply Z.leb_le]; reflexivity.
  - reflexivity.
Defined.

(** C1 fails on [AndroidEmulator::initialize]: a cartridge size one
    above the maximum is accepted, and a core installed. *)
Lemma wrapper_accepts_oversized_cartridge :
  CARTROM_BYTES < 8388609 /\
  fst (AndroidEmulator.initialize None 0 (Some ToyCore.zero_bytes) 8388609
         NTSC (AndroidEmulator.new 0)) = true /\
  AndroidEmulator.emulator_
    (snd (AndroidEmulator.initialize None 0 (Some ToyCore.zero_bytes) 8388609
            NTSC (AndroidEmulator.new 0))) <> None.
Proof. split; [reflexivity | split; [reflexivity | discriminate]]. Qed.

(** C2 fails on [AndroidEmulator::initialize]: a supplied system ROM of
    one byte is accepted, and a core installed. *)
Lemma wrapper_accepts_short_sysrom :
  1 <> SYSROM_BYTES /\
  fst (AndroidEmulator.initialize (Some ToyCore.zero_bytes) 1
         (Some ToyCore.zero_bytes) 4096 NTSC (AndroidEmulator.new 0)) = true /\
  AndroidEmulator.emulator_
    (snd (AndroidEmulator.initialize (Some ToyCore.zero_bytes) 1
            (Some ToyCore.zero_bytes) 4096 NTSC (AndroidEmulator.new 0)))
  <> AndroidEmulator.emulator_ (AndroidEmulator.new 0).
Proof. split; [discriminate | split; [reflexivity | discriminate]]. Qed.

Example sysrom_size_validation_on_toy :
  Jni.nativeInit (Some [0; 0; 0]) None 0 false Jni.initial =
  Some (false, Jni.initial).
Proof.
  apply (proj1 (sysrom_size_validation (core := ToyCore.toy)) [0; 0; 0] None 0 false Jni.initial).
  discriminate.
Defined.

(** C3 on [AndroidEmulator::initialize]: it returns true with the core
    as constructed, never reset, where [nativeInit] on the same input
    installs the core after one reset. *)
Lemma wrapper_initialize_skips_reset :
  AndroidEmulator.initialize None 0 (Some ToyCore.zero_bytes) 4096 NTSC
    (AndroidEmulator.new 0) =
  (true, AndroidEmulator.with_core ToyCore.built_by_wrapper
           (AndroidEmulator.new 0)) /\
  ToyCore.resets ToyCore.built_by_wrapper = 0%nat /\
  Jni.nativeInit None (Some ToyCore.cart4096) 4096 false Jni.initial =
  Some (true, Jni.mkState (Some (Reset ToyCore.built)) 0) /\
  ToyCore.resets (Reset ToyCore.built) = 1%nat.
Proof. repeat split; reflexivity. Qed.

Example pixel_conversion_on_toy :
  load16 (AndroidEmulator.getFramebuffer (AndroidEmulator.runFrame 5 ToyCore.ready)) 7 =
    convert_pixel (load16 (GetPicture (RunFrame ToyCore.built_by_wrapper)) 7) /\
  AndroidEmulator.getFramebufferSize (AndroidEmulator.runFrame 5 ToyCore.ready) =
    FRAMEBUFFER_SIZE.
Proof.
  assert (H := proj2 (proj2 (proj2 (pixel_conversion_correct (core := ToyCore.toy))))
                 5 ToyCore.ready ToyCore.built_by_wrapper).
  destruct H as [Hsize Hpix];
    [reflexivity | reflexivity | vm_compute; reflexivity
     | vm_compute; reflexivity |].
  split; [apply Hpix | exact Hsize].
  apply Nat.ltb_lt. vm_compute. reflexivity.
Defined.

Example runFrame_noop_on_toy :
  AndroidEmulator.runFrame 3 (AndroidEmulator.pause ToyCore.ready) =
  AndroidEmulator.pause ToyCore.ready.
Proof.
  apply (proj1 (proj2 (proj2 (runFrame_noop_when_paused (core := ToyCore.toy))))).
  reflexivity.
Defined.

Example framebuffer_on_toy :
  AndroidEmulator.getFramebuffer
    (AndroidEmulator.run ToyCore.idle_calls (AndroidEmulator.new 0)) =
    replicate (Z.to_nat 153600) 0 /\
  AndroidEmulator.getAudioSampleCount
    (AndroidEmulator.run ToyCore.idle_calls (AndroidEmulator.new 0)) = 0.
Proof.
  apply (proj2 (proj2 (proj2
           (framebuffer_fixed_size (core := ToyCore.toy) 0 ToyCore.idle_calls)))).
  reflexivity.
Defined.

(** One frame, one second after construction: 1.0f. *)
Example fps_after_one_second :
  AndroidEmulator.getFPS
    (AndroidEmulator.run [ToyCore.init_call; AndroidEmulator.CallRunFrame 1000000000]
       (AndroidEmulator.new 0)) = F32.of_Z 1.
Proof. lazy. reflexivity. Qed.

Example fps_nonneg_on_toy :
  F32.nonneg
    (AndroidEmulator.getFPS
       (AndroidEmulator.run
          [ToyCore.init_call; AndroidEmulator.CallRunFrame 1000000000;
           AndroidEmulator.CallRunFrame 1016000000]
          (AndroidEmulator.new 0))) = true.
Proof.
  apply (proj2 (proj2 (proj2 (proj2 (proj2
           (fps_recomputed_once_per_second (core := ToyCore.toy))))))).
  apply Z.leb_le. reflexivity.
Defined.

(** The four samples of the toy core, converted. *)
Example audio_samples_on_toy :
  Jni.nativeGetAudioSamples ToyCore.env ToyCore.running =
  Some [-32768; 32767; 0; -32768].
Proof. reflexivity. Qed.

Example audio_conversion_on_toy :
  Jni.nativeGetAudioSamples ToyCore.env ToyCore.running =
  Some (map convert_sample (GetAudio ToyCore.built)).
Proof.
  apply (proj2 (proj2 (proj2 (audio_conversion_involutive (core := ToyCore.toy))))
           ToyCore.env ToyCore.running ToyCore.built).
  - reflexivity.
  - apply Z.leb_le. reflexivity.
  - reflexivity.
Defined.

Example nativeInit_resets_on_toy :
  exists sysrom_data cartrom_data v,
    construct (Some sysrom_data) cartrom_data STANDARD None 0xe true NTSC
    = Some v /\
    Jni.g_vsmile (Jni.mkState (Some (Reset ToyCore.built)) 0) = Some (Reset v) /\
    Jni.frame_counter (Jni.mkState (Some (Reset ToyCore.built)) 0) =
    Jni.frame_counter Jni.initial.
Proof.
  apply (nativeInit_true_resets (core := ToyCore.toy)
           None (Some ToyCore.cart4096) 4096 false Jni.initial).
  reflexivity.
Defined.

Example nativeInit_refusal_on_toy :
  Jni.nativeInit None (Some []) 0 true ToyCore.running =
    Some (false, ToyCore.running) /\
  ToyCore.running = ToyCore.running.
Proof.
  split; [reflexivity |].
  apply (nativeInit_false_unchanged (core := ToyCore.toy)
           None (Some []) 0 true ToyCore.running ToyCore.running).
  reflexivity.
Defined.

End OnToyCore.

(** * Further properties *)

(** ** Further properties of the format converter *)

Lemma pixel_lossless_all :
  forall p, 0 <= p < 65536 -> pixel_lossless_ok p = true.
Proof. apply forall_u16. vm_cast_no_check (eq_refl true). Qed.

(** X4.  The pixel conversion loses nothing: the 5-5-5 pixel is read
    back from the 5-6-5 one (red, the upper five bits of green, blue),
    so two pixels that differ in any of their fifteen colour bits are
    converted to different pixels. *)
Theorem convert_pixel_lossless :
  (forall p, 0 <= p < 65536 -> decode565 (convert_pixel p) = p mod 32768) /\
  (forall p q, 0 <= p < 32768 -> 0 <= q < 32768 ->
     convert_pixel p = convert_pixel q -> p = q).
Proof.
  assert (Hdec : forall p, 0 <= p < 65536 ->
                   decode565 (convert_pixel p) = p mod 32768).
  { intros p Hp. apply Z.eqb_eq. apply (pixel_lossless_all p Hp). }
  split; [exact Hdec |].
  intros p q Hp Hq Heq.
  rewrite <- (Z.mod_small p 32768), <- (Z.mod_small q 32768) by lia.
  rewrite <- !Hdec by lia. now rewrite Heq.
Qed.

(** The bytes of a stored pixel. *)
Lemma store16_bytes buf i v :
  (2 * i + 1 < length buf)%nat -> 0 <= v < 65536 ->
  store16 buf i v !! (2 * i)%nat = Some (v mod 256) /\
  store16 buf i v !! (2 * i + 1)%nat = Some (v / 256).
Proof.
  intros Hlen Hv. unfold store16, Int.u8. split.
  - rewrite list_lookup_insert_ne by lia.
    now rewrite list_lookup_insert_eq by lia.
  - rewrite list_lookup_insert_eq by (rewrite length_insert; lia).
    f_equal. apply Z.mod_small.
    split; [apply Z.div_pos | apply Z.div_lt_upper_bound]; lia.
Qed.

(** The two bytes the loop leaves for pixel [i]. *)
Lemma convert_bytes src dst n i :
  (2 * n <= length dst)%nat -> (i < n)%nat ->
  convertFramebufferRGB555toRGB565 src dst n !! (2 * i)%nat =
    Some (convert_pixel (load16 src i) mod 256) /\
  convertFramebufferRGB555toRGB565 src dst n !! (2 * i + 1)%nat =
    Some (convert_pixel (load16 src i) / 256).
Proof.
  induction n as [|n IH]; intros Hlen Hi; [lia |].
  rewrite convert_S.
  destruct (Nat.eq_dec i n) as [->|Hne].
  - apply store16_bytes; [rewrite convert_length; lia |].
    apply convert_pixel_range.
  - rewrite !store16_lookup_other by lia. apply IH; lia.
Qed.

(** The loop's result does not depend on what the destination held in
    its first [2 * n] bytes. *)
Lemma convert_overwrites src dst dst' n :
  length dst = (2 * n)%nat -> length dst' = (2 * n)%nat ->
  convertFramebufferRGB555toRGB565 src dst n =
  convertFramebufferRGB555toRGB565 src dst' n.
Proof.
  intros Hd Hd'. apply list_eq. intros k.
  destruct (Nat.lt_ge_cases k (2 * n)) as [Hlt|Hge].
  - destruct (Nat.Even_or_Odd k) as [[i ->]|[i ->]].
    + rewrite (proj1 (convert_bytes src dst n i ltac:(lia) ltac:(lia))).
      now rewrite (proj1 (convert_bytes src dst' n i ltac:(lia) ltac:(lia))).
    + rewrite (proj2 (convert_bytes src dst n i ltac:(lia) ltac:(lia))).
      now rewrite (proj2 (convert_bytes src dst' n i ltac:(lia) ltac:(lia))).
  - rewrite !lookup_ge_None_2; [reflexivity | |]; rewrite convert_length; lia.
Qed.

(** X5.  [convertFramebufferRGB555toRGB565] on a destination that holds
    at least [pixelCount] pixels: the length is kept, pixel [i] below
    [pixelCount] becomes the conversion of source pixel [i], stored low
    byte first, and every byte from [2 * pixelCount] on is left as it
    was; with a count of 0 nothing is written. *)
Theorem convert_framebuffer_writes_prefix :
  forall src dst pixelCount,
    (2 * pixelCount <= length dst)%nat ->
    length (convertFramebufferRGB555toRGB565 src dst pixelCount) = length dst /\
    (forall i, (i < pixelCount)%nat ->
       convertFramebufferRGB555toRGB565 src dst pixelCount !! (2 * i)%nat =
         Some (convert_pixel (load16 src i) mod 256) /\
       convertFramebufferRGB555toRGB565 src dst pixelCount !! (2 * i + 1)%nat =
         Some (convert_pixel (load16 src i) / 256)) /\
    (forall k, (2 * pixelCount <= k)%nat ->
       convertFramebufferRGB555toRGB565 src dst pixelCount !! k = dst !! k) /\
    convertFramebufferRGB555toRGB565 src dst 0 = dst.
Proof.
  intros src dst n Hlen. split; [apply convert_length |].
  split; [intros i Hi; now apply convert_bytes |].
  split; [intros k Hk; now apply convert_beyond | reflexivity].
Qed.

(** ** Further properties of the wrapper class *)

Lemma sample_paths_all : forall u, 0 <= u < 65536 -> sample_paths_ok u = true.
Proof. apply forall_u16. vm_cast_no_check (eq_refl true). Qed.

Section WrapperFrames.
Context `{core : Core}.
Import AndroidEmulator.

(** X6.  The framebuffer an unguarded [runFrame] leaves is a function of
    the core's picture alone: byte [2 * i] is the low byte and byte
    [2 * i + 1] the high byte of the converted pixel [i], for each of
    the 76800 pixels, and two instances whose cores show the same
    picture end with equal framebuffers, whatever theirs held before. *)
Theorem runFrame_overwrites_framebuffer :
  forall now s v,
    paused_ s = false -> emulator_ s = Some v ->
    getFramebufferSize s = FRAMEBUFFER_SIZE ->
    (forall i, (i < Z.to_nat 76800)%nat ->
       getFramebuffer (runFrame now s) !! (2 * i)%nat =
         Some (convert_pixel (load16 (GetPicture (RunFrame v)) i) mod 256) /\
       getFramebuffer (runFrame now s) !! (2 * i + 1)%nat =
         Some (convert_pixel (load16 (GetPicture (RunFrame v)) i) / 256)) /\
    (forall now' s' v',
       paused_ s' = false -> emulator_ s' = Some v' ->
       getFramebufferSize s' = FRAMEBUFFER_SIZE ->
       GetPicture (RunFrame v') = GetPicture (RunFrame v) ->
       getFramebuffer (runFrame now' s') = getFramebuffer (runFrame now s)).
Proof.
  intros now s v Hp He Hsize.
  unfold getFramebufferSize, getFramebuffer in *.
  rewrite FRAMEBUFFER_SIZE_eq in Hsize.
  destruct (runFrame_active now s v Hp He) as (_ & Hfb & _).
  change (DISPLAY_WIDTH * DISPLAY_HEIGHT) with 76800 in Hfb.
  split.
  - intros i Hi. rewrite Hfb. apply convert_bytes; lia.
  - intros now' s' v' Hp' He' Hsize' Hpic.
    rewrite FRAMEBUFFER_SIZE_eq in Hsize'.
    destruct (runFrame_active now' s' v' Hp' He') as (_ & Hfb' & _).
    change (DISPLAY_WIDTH * DISPLAY_HEIGHT) with 76800 in Hfb'.
    rewrite Hfb, Hfb', Hpic. apply convert_overwrites; lia.
Qed.

(** X7.  The audio buffer an unguarded [runFrame] leaves holds the
    core's samples of that frame and nothing of what it held before:
    one per sample, in order, each with its sixteen bits unchanged and
    read as a signed number.  No sign bit is flipped on this path, so
    each stored sample differs from the one [nativeGetAudioSamples]
    returns for it in the top bit. *)
Theorem runFrame_audio_bits_unchanged :
  forall now s v,
    paused_ s = false -> emulator_ s = Some v ->
    Forall (fun u => 0 <= u < 65536) (GetAudio (RunFrame v)) ->
    getAudioSampleCount (runFrame now s) =
      Z.of_nat (length (GetAudio (RunFrame v))) /\
    map Int.u16 (getAudioSamples (runFrame now s)) = GetAudio (RunFrame v) /\
    (forall i u, GetAudio (RunFrame v) !! i = Some u ->
       getAudioSamples (runFrame now s) !! i =
         Some (if u <? 32768 then u else u - 65536) /\
       exists x, getAudioSamples (runFrame now s) !! i = Some x /\
                 Z.lxor (Int.u16 x) (Int.u16 (convert_sample u)) = 0x8000).
Proof.
  intros now s v Hp He Hrange.
  unfold getAudioSampleCount, getAudioSamples.
  destruct (runFrame_active now s v Hp He) as (_ & _ & -> & _).
  assert (Hall : forall u, u ∈ GetAudio (RunFrame v) -> sample_paths_ok u = true).
  { intros u Hu. apply sample_paths_all.
    rewrite Forall_forall in Hrange. now apply Hrange. }
  split; [now rewrite length_map |]. split.
  - rewrite map_map. rewrite <- (map_id (GetAudio (RunFrame v))) at 2.
    apply map_ext_in. intros u Hu.
    apply list_elem_of_In, Hall in Hu. unfold sample_paths_ok in Hu.
    rewrite !andb_true_iff in Hu. destruct Hu as ((Hu & _) & _).
    now apply Z.eqb_eq in Hu.
  - intros i u Hi.
    pose proof (Hall u (list_elem_of_lookup_2 _ _ _ Hi)) as Hu.
    unfold sample_paths_ok in Hu. rewrite !andb_true_iff in Hu.
    destruct Hu as ((_ & Hx) & Hs). apply Z.eqb_eq in Hx, Hs.
    change (map Int.s16 (GetAudio (RunFrame v))) with
      (Int.s16 <$> GetAudio (RunFrame v)).
    rewrite list_lookup_fmap, Hi. cbn [fmap option_fmap option_map].
    split; [now rewrite Hs |]. exists (Int.s16 u). now split.
Qed.

(** A bracket of [pause] and [resume] around an unpaused state. *)
Lemma resume_pause s : paused_ s = false -> resume (pause s) = s.
Proof. destruct s. cbn. now intros ->. Qed.

(** X8.  [pause], any number of [runFrame] calls, [resume]: an instance
    that was running is exactly as it was before the [pause], and one
    that was already paused is running with nothing else changed. *)
Theorem pause_resume_bracket :
  forall s nows,
    resume (runFrames nows (pause s)) = set_paused false s /\
    (paused_ s = false -> resume (runFrames nows (pause s)) = s).
Proof.
  intros s nows.
  assert (Hfix : runFrames nows (pause s) = pause s).
  { unfold runFrames. induction nows as [|now rest IH]; [reflexivity |].
    cbn [fold_left]. now rewrite (runFrame_paused now (pause s) eq_refl). }
  rewrite Hfix. split; [reflexivity | apply resume_pause].
Qed.

(** An unguarded [runFrame] counts the frame as [updateFPS] does. *)
Lemma runFrame_active_fps now s v :
  paused_ s = false -> emulator_ s = Some v ->
  currentFPS_ (runFrame now s) = currentFPS_ (updateFPS now s) /\
  frameCount_ (runFrame now s) = frameCount_ (updateFPS now s) /\
  fpsUpdateTime_ (runFrame now s) = fpsUpdateTime_ (updateFPS now s).
Proof.
  intros Hp He. unfold runFrame. rewrite Hp, He.
  unfold updateFPS, elapsed_ms.
  cbn [currentFPS_ frameCount_ fpsUpdateTime_].
  destruct (1000 <=? _); repeat split.
Qed.

Lemma runFrame_stays_active now s v :
  paused_ s = false -> emulator_ s = Some v ->
  paused_ (runFrame now s) = false /\
  emulator_ (runFrame now s) = Some (RunFrame v).
Proof.
  intros Hp He. destruct (runFrame_active now s v Hp He) as (H1 & _ & _ & H4).
  now split.
Qed.

(** Frames run before the second is over are counted, one by one. *)
Lemma runFrames_count nows : forall s v,
  paused_ s = false -> emulator_ s = Some v ->
  Forall (fun now => elapsed_ms now s < 1000) nows ->
  0 <= frameCount_ s ->
  frameCount_ s + Z.of_nat (length nows) <= Int.INT_MAX ->
  paused_ (runFrames nows s) = false /\
  emulator_ (runFrames nows s) =
    Some (fold_left (fun c _ => RunFrame c) nows v) /\
  currentFPS_ (runFrames nows s) = currentFPS_ s /\
  frameCount_ (runFrames nows s) = frameCount_ s + Z.of_nat (length nows) /\
  fpsUpdateTime_ (runFrames nows s) = fpsUpdateTime_ s.
Proof.
  induction nows as [|now rest IH]; intros s v Hp He Hall Hfc Hmax.
  - cbn. repeat split; try assumption. lia.
  - apply Forall_cons in Hall as [Hnow Hrest]. cbn [length] in Hmax.
    destruct (runFrame_stays_active now s v Hp He) as [Hp' He'].
    destruct (runFrame_active_fps now s v Hp He) as (Hf & Hc & Ht).
    destruct (updateFPS_keep now s Hnow) as (Hf' & Hc' & Ht').
    rewrite Hf' in Hf. rewrite Hc' in Hc. rewrite Ht' in Ht.
    rewrite s32_small in Hc by (unfold Int.INT_MAX in *; lia).
    unfold runFrames in *. cbn [fold_left].
    destruct (IH (runFrame now s) (RunFrame v) Hp' He') as (R1 & R2 & R3 & R4 & R5).
    + eapply Forall_impl; [exact Hrest |]. intros t Hlt. cbn in Hlt.
      unfold elapsed_ms in *. now rewrite Ht.
    + lia.
    + lia.
    + rewrite R3, R4, R5, Hf, Hc, Ht. repeat split; try assumption.
      cbn [length]. lia.
Qed.

(** X9.  The counter counts: on a running instance, [k] frames run
    while less than 1000 ms have passed, followed by one frame at 1000
    ms or more, set the FPS value to [(count + k + 1) * 1000.0f /
    elapsed], where [count] was the counter before and [elapsed] the
    milliseconds of that last frame; the counter is back at 0 and the
    update time is the time of that frame. *)
Theorem fps_counts_frames_of_the_window :
  forall nows now s v,
    paused_ s = false -> emulator_ s = Some v ->
    Forall (fun t => elapsed_ms t s < 1000) nows ->
    1000 <= elapsed_ms now s ->
    0 <= frameCount_ s ->
    frameCount_ s + Z.of_nat (length nows) + 1 <= Int.INT_MAX ->
    getFPS (runFrame now (runFrames nows s)) =
      fps_value (frameCount_ s + Z.of_nat (length nows) + 1)
                (elapsed_ms now s) /\
    frameCount_ (runFrame now (runFrames nows s)) = 0 /\
    fpsUpdateTime_ (runFrame now (runFrames nows s)) = now.
Proof.
  intros nows now s v Hp He Hall Hnow Hfc Hmax. unfold getFPS.
  destruct (runFrames_count nows s v Hp He Hall Hfc) as (R1 & R2 & R3 & R4 & R5);
    [lia |].
  destruct (runFrame_active_fps now (runFrames nows s) _ R1 R2) as (-> & -> & ->).
  assert (Hel : elapsed_ms now (runFrames nows s) = elapsed_ms now s)
    by (unfold elapsed_ms; now rewrite R5).
  destruct (updateFPS_recompute now (runFrames nows s)) as (-> & -> & ->);
    [now rewrite Hel |].
  rewrite Hel, R4.
  rewrite s32_small by (unfold Int.INT_MAX in *; lia).
  repeat split.
Qed.

(** X10.  The threshold in clock ticks: with the tick difference since
    the last update within a [long long], [updateFPS] recomputes (counter
    to 0, update time to now) exactly when that difference is at least
    1000000000 ticks; one tick less, or a clock that went backwards,
    only counts the frame. *)
Theorem fps_threshold_in_ticks :
  forall now s,
    -9223372036854775808 <= now - fpsUpdateTime_ s < 9223372036854775808 ->
    (1000 <= elapsed_ms now s <-> 1000000000 <= now - fpsUpdateTime_ s) /\
    (1000000000 <= now - fpsUpdateTime_ s ->
       frameCount_ (updateFPS now s) = 0 /\
       fpsUpdateTime_ (updateFPS now s) = now) /\
    (now - fpsUpdateTime_ s < 1000000000 ->
       getFPS (updateFPS now s) = getFPS s /\
       frameCount_ (updateFPS now s) = Int.s32 (frameCount_ s + 1) /\
       fpsUpdateTime_ (updateFPS now s) = fpsUpdateTime_ s).
Proof.
  intros now s Hd.
  assert (Hiff : 1000 <= elapsed_ms now s <->
                 1000000000 <= now - fpsUpdateTime_ s).
  { unfold elapsed_ms, duration_cast_ms, Int.s64.
    set (d := now - fpsUpdateTime_ s) in *.
    replace ((d + 9223372036854775808) mod 18446744073709551616
             - 9223372036854775808) with d
      by (rewrite Z.mod_small; lia).
    pose proof (Z.quot_rem' d 1000000) as Hqr.
    pose proof (Z.rem_bound_abs d 1000000 ltac:(lia)) as Habs.
    split; intros H.
    - assert (0 <= d) by lia.
      pose proof (Z.rem_nonneg d 1000000 ltac:(lia) ltac:(lia)). lia.
    - pose proof (Z.rem_nonneg d 1000000 ltac:(lia) ltac:(lia)). lia. }
  split; [exact Hiff | split].
  - intros H. apply Hiff in H.
    destruct (updateFPS_recompute now s H) as (_ & -> & ->). now split.
  - intros H. unfold getFPS. apply updateFPS_keep.
    destruct (Z_lt_le_dec (elapsed_ms now s) 1000) as [Hlt|Hge]; [exact Hlt |].
    apply Hiff in Hge. lia.
Qed.

End WrapperFrames.

(** ** The life of a wrapper instance *)

Section WrapperLife.
Context `{core : Core}.
Import AndroidEmulator.

(** The two ways [initialize] ends. *)
Lemma initialize_cases biosData biosSize romData romSize timing s :
  initialize biosData biosSize romData romSize timing s = (false, s) \/
  exists rom_bytes v,
    romData = Some rom_bytes /\ romSize <> 0 /\
    construct (bios_image biosData biosSize)
      (memcpy_rom zero_rom rom_bytes (Z.min romSize CARTROM_BYTES))
      STANDARD None 0xe true timing = Some v /\
    initialize biosData biosSize romData romSize timing s
    = (true, with_core v s).
Proof.
  destruct romData as [rom_bytes|]; [| left; now apply initialize_refused; left].
  destruct (Z.eq_dec romSize 0) as [->|Hsize];
    [left; apply initialize_refused; now right |].
  rewrite initialize_accepted by assumption.
  destruct (construct _ _ _ _ _ _ _) as [v|] eqn:Hc; [right | now left].
  exists rom_bytes, v. repeat split; assumption.
Qed.

Lemma set_paused_same s : set_paused (paused_ s) s = s.
Proof. now destruct s. Qed.

(** X11.  [initialize] is all or nothing.  When it returns false the
    instance is exactly as before, a core installed earlier included;
    when it returns true the core constructed from the given buffers has
    taken the place of any earlier one and nothing else has changed:
    framebuffer, audio buffer, pause flag and FPS counter are those of
    before, so a paused instance stays paused. *)
Theorem initialize_all_or_nothing :
  forall biosData biosSize romData romSize timing s ok s',
    initialize biosData biosSize romData romSize timing s = (ok, s') ->
    (ok = false -> s' = s) /\
    (ok = true ->
       exists rom_bytes v,
         romData = Some rom_bytes /\
         construct (bios_image biosData biosSize)
           (memcpy_rom zero_rom rom_bytes (Z.min romSize CARTROM_BYTES))
           STANDARD None 0xe true timing = Some v /\
         emulator_ s' = Some v /\
         getFramebuffer s' = getFramebuffer s /\
         getAudioSamples s' = getAudioSamples s /\
         isPaused s' = isPaused s /\
         getFPS s' = getFPS s /\
         frameCount_ s' = frameCount_ s /\
         fpsUpdateTime_ s' = fpsUpdateTime_ s /\
         lastFrameTime_ s' = lastFrameTime_ s).
Proof.
  intros biosData biosSize romData romSize timing s ok s' Hinit.
  destruct (initialize_cases biosData biosSize romData romSize timing s)
    as [Hno|(rom_bytes & v & Hrom & _ & Hc & Hyes)].
  - rewrite Hno in Hinit. injection Hinit as <- <-.
    split; [reflexivity | discriminate].
  - rewrite Hyes in Hinit. injection Hinit as <- <-.
    split; [discriminate |]. intros _. exists rom_bytes, v.
    repeat split; assumption.
Qed.

Ltac life_done :=
  repeat split; try reflexivity;
  try (intros _; eexists; reflexivity);
  try (intros [? ?]; discriminate); auto.

(** What one call does to the pause flag, the construction time and the
    presence of a core. *)
Lemma step_life s c :
  paused_ (step s c) = last_pause_flag [c] (paused_ s) /\
  lastFrameTime_ (step s c) = lastFrameTime_ s /\
  (is_Some (emulator_ s) -> is_Some (emulator_ (step s c))).
Proof.
  destruct c; cbn [step last_pause_flag fold_left snd saveState loadState].
  - destruct (initialize_cases biosData biosSize romData romSize timing s)
      as [->|(rb & v & _ & _ & _ & ->)]; cbn [snd]; repeat split;
      [auto | intros _; eexists; reflexivity].
  - destruct (paused_ s) eqn:Hp.
    { rewrite runFrame_paused by assumption. rewrite Hp. now repeat split. }
    destruct (emulator_ s) as [v|] eqn:He.
    + destruct (runFrame_active now s v Hp He) as (H1 & _ & _ & H4).
      rewrite H1, H4. split; [reflexivity |].
      split; [| intros _; eexists; reflexivity].
      unfold runFrame. rewrite Hp, He. unfold updateFPS.
      destruct (1000 <=? _); reflexivity.
    + rewrite runFrame_no_instance by assumption. rewrite Hp, He.
      now repeat split.
  - unfold updateInput. destruct (emulator_ s); life_done.
  - life_done.
  - life_done.
  - unfold reset. destruct (emulator_ s); life_done.
  - life_done.
  - life_done.
Qed.

Lemma last_pause_flag_cons c rest b :
  last_pause_flag (c :: rest) b = last_pause_flag rest (last_pause_flag [c] b).
Proof. reflexivity. Qed.

Lemma run_cons c rest s : run (c :: rest) s = run rest (step s c).
Proof. reflexivity. Qed.

Lemma run_life calls : forall s,
  paused_ (run calls s) = last_pause_flag calls (paused_ s) /\
  lastFrameTime_ (run calls s) = lastFrameTime_ s /\
  (is_Some (emulator_ s) -> is_Some (emulator_ (run calls s))).
Proof.
  induction calls as [|c rest IH]; intros s; [now repeat split |].
  rewrite run_cons, last_pause_flag_cons.
  destruct (step_life s c) as (Hp & Ht & He).
  destruct (IH (step s c)) as (Hp' & Ht' & He').
  rewrite Hp', Ht', Hp, Ht. repeat split. intros H. apply He', He, H.
Qed.

(** X12.  Through any run of calls on any instance: [isPaused] is what
    the last [pause] or [resume] of the run set (the flag of before
    when there was none), whatever else was called in between; a core,
    once installed, is never removed (only replaced); and the recorded
    construction time never changes. *)
Theorem wrapper_run_invariants :
  forall calls s,
    isPaused (run calls s) = last_pause_flag calls (isPaused s) /\
    (is_Some (emulator_ s) -> is_Some (emulator_ (run calls s))) /\
    lastFrameTime_ (run calls s) = lastFrameTime_ s.
Proof.
  intros calls s. destruct (run_life calls s) as (Hp & Ht & He).
  unfold isPaused. repeat split; assumption.
Qed.

(** A call on an instance without a core either installs one or changes
    at most the pause flag. *)
Lemma step_without_core s c :
  emulator_ s = None ->
  is_Some (emulator_ (step s c)) \/
  step s c = set_paused (last_pause_flag [c] (paused_ s)) s.
Proof.
  intros He.
  destruct c; cbn [step last_pause_flag fold_left snd saveState loadState];
    try (right; now rewrite set_paused_same).
  - destruct (initialize_cases biosData biosSize romData romSize timing s)
      as [->|(rb & v & _ & _ & _ & ->)]; cbn [snd].
    + right. now rewrite set_paused_same.
    + left. cbn. eauto.
  - right. rewrite runFrame_no_instance by assumption.
    now rewrite set_paused_same.
  - right. unfold updateInput. rewrite He. now rewrite set_paused_same.
  - right. reflexivity.
  - right. reflexivity.
  - right. unfold reset. rewrite He. now rewrite set_paused_same.
Qed.

Lemma run_without_core calls : forall s,
  emulator_ s = None -> emulator_ (run calls s) = None ->
  run calls s = set_paused (last_pause_flag calls (paused_ s)) s.
Proof.
  induction calls as [|c rest IH]; intros s He Hend;
    [cbn; now rewrite set_paused_same |].
  rewrite run_cons in *. rewrite last_pause_flag_cons.
  destruct (step_without_core s c He) as [Hsome|Hstep].
  - destruct (run_life rest (step s c)) as (_ & _ & Hkeep).
    apply Hkeep in Hsome. rewrite Hend in Hsome. now destruct Hsome.
  - rewrite Hstep in *. rewrite IH; [| exact He | exact Hend].
    reflexivity.
Qed.

(** X13.  An instance on which no [initialize] has succeeded shows
    nothing but its pause flag: after any run of calls from
    construction that ends without a core, the instance is the newly
    constructed one with the pause flag of the last [pause] or
    [resume]; the framebuffer is all zero, there is no audio, the FPS
    value is 0.0f and no frame was counted. *)
Theorem wrapper_without_core_is_pristine :
  forall now0 calls,
    emulator_ (run calls (new now0)) = None ->
    run calls (new now0) =
      set_paused (last_pause_flag calls false) (new now0) /\
    getFramebuffer (run calls (new now0)) =
      replicate (Z.to_nat FRAMEBUFFER_SIZE) 0 /\
    getAudioSamples (run calls (new now0)) = [] /\
    getFPS (run calls (new now0)) = F32.zero /\
    frameCount_ (run calls (new now0)) = 0.
Proof.
  intros now0 calls Hend.
  rewrite (run_without_core calls (new now0) eq_refl Hend).
  repeat split.
Qed.

End WrapperLife.

(** ** Operations without an emulator instance *)

Section MissingInstance.
Context `{core : Core}.
Import AndroidEmulator.

(** C7, as the code has it.  Without an instance no operation signals an
    error, but not every one is a no-op.  The JNI entry points return at
    their guard: [nativeRunFrame], [nativeSendInput],
    [nativePressOnButton] and [nativeDestroy] leave the globals as they
    are, [nativeGetFrameBuffer] and [nativeGetAudioSamples] return null.
    On an instance of the wrapper class without a core, [runFrame],
    [updateInput] and [reset] return the state they were given,
    [saveState] gives an empty vector and [loadState] false, both
    without a change.  [pause] and [resume] have no guard: they set the
    pause flag to true and to false, install no core and change nothing
    else, so each is a no-op only when the flag has that value already.
    The buffer getters have no guard either: as long as no [initialize]
    has succeeded since construction, [getFramebuffer] hands out the
    153600 zero bytes of the constructor, not an empty or null result;
    there are no audio samples and the FPS value is 0.0f. *)
Theorem missing_instance_behaviour :
  (forall s, Jni.g_vsmile s = None ->
     Jni.nativeRunFrame s = s /\
     (forall env, Jni.nativeGetFrameBuffer env s = None) /\
     (forall env, Jni.nativeGetAudioSamples env s = None) /\
     (forall enter help back abc red yellow blue green joyX joyY,
        Jni.nativeSendInput enter help back abc red yellow blue green
          joyX joyY s = s) /\
     (forall pressed, Jni.nativePressOnButton pressed s = s) /\
     Jni.nativeDestroy s = s) /\
  (forall s, emulator_ s = None ->
     (forall now, runFrame now s = s) /\
     (forall input, updateInput input s = s) /\
     reset s = s /\
     saveState s = ([], s) /\
     (forall data, loadState data s = (false, s)) /\
     emulator_ (pause s) = None /\
     emulator_ (resume s) = None /\
     isPaused (pause s) = true /\
     isPaused (resume s) = false /\
     (pause s = s <-> isPaused s = true) /\
     (resume s = s <-> isPaused s = false) /\
     (forall s', s' = pause s \/ s' = resume s ->
        getFramebuffer s' = getFramebuffer s /\
        getAudioSamples s' = getAudioSamples s /\
        getFPS s' = getFPS s /\
        frameCount_ s' = frameCount_ s /\
        fpsUpdateTime_ s' = fpsUpdateTime_ s /\
        lastFrameTime_ s' = lastFrameTime_ s)) /\
  (forall now0 calls,
     emulator_ (run calls (new now0)) = None ->
     getFramebufferSize (run calls (new now0)) = 153600 /\
     getFramebuffer (run calls (new now0)) = replicate (Z.to_nat 153600) 0 /\
     getAudioSamples (run calls (new now0)) = [] /\
     getAudioSampleCount (run calls (new now0)) = 0 /\
     getFPS (run calls (new now0)) = F32.zero).
Proof.
  split; [| split].
  - intros [g n] Hg. cbn [Jni.g_vsmile] in Hg. subst g.
    repeat split.
  - intros s Hs.
    split; [intros now; now apply runFrame_no_instance |].
    split; [intros input; unfold updateInput; now rewrite Hs |].
    split; [unfold reset; now rewrite Hs |].
    split; [reflexivity |].
    split; [reflexivity |].
    split; [exact Hs |].
    split; [exact Hs |].
    split; [reflexivity |].
    split; [reflexivity |].
    split; [| split].
    + split.
      * intros Heq. rewrite <- Heq. reflexivity.
      * intros Hp. unfold isPaused in Hp. unfold pause.
        rewrite <- Hp. apply set_paused_same.
    + split.
      * intros Heq. rewrite <- Heq. reflexivity.
      * intros Hp. unfold isPaused in Hp. unfold resume.
        rewrite <- Hp. apply set_paused_same.
    + intros s' [-> | ->]; now repeat split.
  - intros now0 calls Hend.
    rewrite (run_without_core calls (new now0) eq_refl Hend).
    split; [| split; [reflexivity | split; [reflexivity | split; reflexivity]]].
    apply (new_fb_length now0).
Qed.

End MissingInstance.

(** ** Further properties of the JNI bridge *)

Section JniFrames.
Context `{core : Core}.

(** X14.  [nativeGetFrameBuffer] with an instance returns the bytes of
    the core's picture as they are, one for one and unconverted (an
    empty array for an empty picture), when the array can be allocated,
    and null when it cannot. *)
Theorem nativeGetFrameBuffer_verbatim :
  forall env s v,
    Jni.g_vsmile s = Some v ->
    Z.of_nat (length (GetPicture v)) <= Int.INT_MAX ->
    (Jni.alloc_ok env (Z.of_nat (length (GetPicture v))) = true ->
       Jni.nativeGetFrameBuffer env s = Some (GetPicture v)) /\
    (Jni.alloc_ok env (Z.of_nat (length (GetPicture v))) = false ->
       Jni.nativeGetFrameBuffer env s = None).
Proof.
  intros env s v Hg Hlen. unfold Jni.nativeGetFrameBuffer. rewrite Hg.
  rewrite (jsize_small _ Hlen). unfold Jni.NewArray.
  destruct (length (GetPicture v) =? 0)%nat eqn:Hempty.
  - apply Nat.eqb_eq in Hempty.
    destruct (GetPicture v) as [|b rest]; [| discriminate].
    change (Z.of_nat (length (@nil Z))) with 0. cbn [Z.leb Z.compare andb].
    split; intros ->; reflexivity.
  - replace (0 <=? Z.of_nat (length (GetPicture v))) with true
      by (symmetry; apply Z.leb_le; lia).
    split; intros ->; cbn [andb]; [| reflexivity].
    unfold Jni.SetArrayRegion. rewrite Nat2Z.id.
    rewrite take_ge by lia. rewrite drop_ge by (rewrite length_replicate; lia).
    now rewrite app_nil_r.
Qed.

(** X15.  [n] calls of [nativeRunFrame] on an instance step the core [n]
    times and leave it installed; the frame counter has grown by [n]
    (as long as the int does not overflow). *)
Theorem nativeRunFrame_steps_n_times :
  forall n s v,
    Jni.g_vsmile s = Some v ->
    -2147483648 <= Jni.frame_counter s ->
    Jni.frame_counter s + Z.of_nat n <= Int.INT_MAX ->
    Nat.iter n Jni.nativeRunFrame s =
    Jni.mkState (Some (Nat.iter n RunFrame v)) (Jni.frame_counter s + Z.of_nat n).
Proof.
  induction n as [|n IH]; intros s v Hg Hlo Hhi.
  - destruct s as [g c]. cbn in *. subst g. f_equal. lia.
  - rewrite !Nat.iter_succ. rewrite (IH s v Hg Hlo) by lia.
    unfold Jni.nativeRunFrame. cbn [Jni.g_vsmile Jni.frame_counter].
    rewrite s32_small by (unfold Int.INT_MAX in *; lia).
    f_equal. lia.
Qed.

End JniFrames.

(** ** The ROM image handed to the core *)

(** X16.  [memcpy] into a zeroed ROM array gives the core the source
    bytes and zero padding: byte [k] of the array is byte [k] of the
    source for [k] below the copied size and 0 from there on, whether
    the size is even or odd. *)
Theorem memcpy_rom_bytes :
  forall (src : Z -> Z) (n k : Z),
    0 <= k ->
    (forall i, 0 <= i < n -> 0 <= src i < 256) ->
    rom_byte (memcpy_rom zero_rom src n) k = if k <? n then src k else 0.
Proof.
  intros src n k Hk Hsrc. unfold rom_byte, memcpy_rom, zero_rom, Int.u8.
  change (0 mod 256) with 0. change (0 / 256) with 0.
  pose proof (Z.div_mod k 2 ltac:(lia)) as Hk2. rewrite Zmod_even in Hk2.
  set (w := k / 2) in *.
  assert (Hbyte : forall i, 0 <= (if i <? n then src i mod 256 else 0) < 256).
  { intros i. destruct (i <? n); [apply Z.mod_pos_bound |]; lia. }
  assert (Hread : forall i, 0 <= i ->
            (if i <? n then src i mod 256 else 0) = if i <? n then src i else 0).
  { intros i Hi. destruct (Z.ltb_spec i n) as [Hlt|]; [| reflexivity].
    apply Z.mod_small. apply Hsrc. lia. }
  pose proof (Hbyte (2 * w)) as Hlo. pose proof (Hbyte (2 * w + 1)) as Hhi.
  set (lo := if 2 * w <? n then src (2 * w) mod 256 else 0) in *.
  set (hi := if 2 * w + 1 <? n then src (2 * w + 1) mod 256 else 0) in *.
  destruct (Z.even k).
  - replace k with (2 * w) by lia. rewrite <- Hread by lia. fold lo.
    Z.to_euclidean_division_equations. lia.
  - replace k with (2 * w + 1) by lia. rewrite <- Hread by lia. fold hi.
    Z.to_euclidean_division_equations. lia.
Qed.

(** ** Runs of frames, and what the core is built from *)

Section FrameRuns.
Context `{core : Core}.
Import AndroidEmulator.

Lemma runFrames_snoc nows now s :
  runFrames (nows ++ [now]) s = runFrame now (runFrames nows s).
Proof. unfold runFrames. now rewrite fold_left_app. Qed.

(** X17.  On a running instance every [runFrame] steps the core exactly
    once, whatever the clock says: after [n] calls the core has run [n]
    frames and the instance is still running; from the first call on,
    the audio buffer holds the samples and the framebuffer the
    converted picture of the latest frame only. *)
Theorem runFrames_show_latest_frame :
  forall nows s v,
    paused_ s = false -> emulator_ s = Some v ->
    getFramebufferSize s = FRAMEBUFFER_SIZE ->
    emulator_ (runFrames nows s) = Some (Nat.iter (length nows) RunFrame v) /\
    isPaused (runFrames nows s) = false /\
    getFramebufferSize (runFrames nows s) = FRAMEBUFFER_SIZE /\
    (nows <> [] ->
     getAudioSamples (runFrames nows s) =
       map Int.s16 (GetAudio (Nat.iter (length nows) RunFrame v)) /\
     getFramebuffer (runFrames nows s) =
       convertFramebufferRGB555toRGB565
         (GetPicture (Nat.iter (length nows) RunFrame v))
         (getFramebuffer s) (Z.to_nat (DISPLAY_WIDTH * DISPLAY_HEIGHT))).
Proof.
  intros nows s v Hp He Hsize.
  unfold isPaused, getFramebufferSize, getAudioSamples, getFramebuffer in *.
  induction nows as [|now rest IH] using rev_ind.
  - split; [exact He |]. split; [exact Hp |]. split; [exact Hsize |].
    now intros [].
  - destruct IH as (IHe & IHp & IHs & _).
    rewrite runFrames_snoc, length_app, Nat.add_1_r. cbn [length Nat.iter].
    destruct (runFrame_active now (runFrames rest s) _ IHp IHe)
      as (Hcore & Hfb & Haudio & Hpaused).
    rewrite runFrame_fb_length, Hcore, Hfb, Haudio, Hpaused.
    split; [reflexivity |]. split; [reflexivity |]. split; [exact IHs |].
    intros _. split; [reflexivity |].
    rewrite FRAMEBUFFER_SIZE_eq in IHs, Hsize.
    change (DISPLAY_WIDTH * DISPLAY_HEIGHT) with 76800.
    apply convert_overwrites; lia.
Qed.

End FrameRuns.

Section CoreConstruction.
Context `{core : Core}.

Lemma array_view_byte (a : list Z) (i : Z) :
  Forall (fun b => 0 <= b < 256) a -> 0 <= array_view a i < 256.
Proof.
  intros Ha. unfold array_view. destruct (i <? 0); [lia |].
  rewrite list_lookup_total_alt.
  destruct (a !! Z.to_nat i) as [b|] eqn:Hb; cbn; [| lia].
  rewrite Forall_forall in Ha. apply Ha. eapply list_elem_of_lookup_2, Hb.
Qed.

Lemma array_view_nonneg (a : list Z) (k : Z) :
  0 <= k -> array_view a k = a !!! Z.to_nat k.
Proof.
  intros Hk. unfold array_view.
  now replace (k <? 0) with false by (symmetry; apply Z.ltb_ge; lia).
Qed.

(** X18.  Whenever [nativeInit] returns true, the core was constructed
    from exactly what was passed in: a cartridge image whose bytes are
    those of the array, zero-padded (the array being 1 to
    [CARTROM_BYTES] bytes long); as system ROM the bytes of the array
    supplied, which then has the expected length, or else the dummy
    ROM; cartridge type STANDARD, no NVRAM, region code 0xe, the logo
    shown, and PAL timing exactly when [usePAL] is set. *)
Theorem nativeInit_constructs_from_inputs :
  forall sysrom bytes cartSize (usePAL : bool) s s',
    Forall (fun b => 0 <= b < 256) bytes ->
    (forall sys_bytes, sysrom = Some sys_bytes ->
       Forall (fun b => 0 <= b < 256) sys_bytes) ->
    Jni.nativeInit sysrom (Some bytes) cartSize usePAL s = Some (true, s') ->
    exists sysrom_data cartrom_data v,
      construct (Some sysrom_data) cartrom_data STANDARD None 0xe true
        (if usePAL then PAL else NTSC) = Some v /\
      Jni.g_vsmile s' = Some (Reset v) /\
      0 < Z.of_nat (length bytes) <= CARTROM_BYTES /\
      (forall k, 0 <= k ->
         rom_byte cartrom_data k =
         if k <? Z.of_nat (length bytes) then bytes !!! Z.to_nat k else 0) /\
      match sysrom with
      | None => sysrom_data = dummy_sysrom
      | Some sys_bytes =>
          Z.of_nat (length sys_bytes) = SYSROM_BYTES /\
          forall k, 0 <= k ->
            rom_byte sysrom_data k =
            if k <? SYSROM_BYTES then sys_bytes !!! Z.to_nat k else 0
      end.
Proof.
  intros sysrom bytes cartSize usePAL s s' Hbytes Hsys Hinit.
  unfold Jni.nativeInit in Hinit.
  destruct (Jni.prepare_sysrom sysrom) as [[]|sysrom_data] eqn:Hprep;
    [discriminate |].
  destruct (_ || _) eqn:Hlen; [discriminate |].
  apply orb_false_iff in Hlen as [Hlo Hhi].
  apply Z.leb_gt in Hlo. rewrite Z.gtb_ltb in Hhi. apply Z.ltb_ge in Hhi.
  match type of Hinit with context [construct ?a ?b ?c ?d ?e ?f ?g] =>
    destruct (construct a b c d e f g) as [v|] eqn:Hc end; [| discriminate].
  injection Hinit as <-.
  eexists _, _, v. split; [exact Hc |]. split; [reflexivity |].
  split; [lia |]. split.
  - intros k Hk. rewrite memcpy_rom_bytes; [| lia |].
    + now rewrite array_view_nonneg.
    + intros i _. now apply array_view_byte.
  - destruct sysrom as [sys_bytes|].
    + unfold Jni.prepare_sysrom in Hprep.
      destruct (Z.of_nat (length sys_bytes) =? SYSROM_BYTES) eqn:Hsz;
        [| discriminate].
      apply Z.eqb_eq in Hsz. cbn [negb] in Hprep. injection Hprep as <-.
      split; [exact Hsz |]. intros k Hk. rewrite Hsz.
      rewrite memcpy_rom_bytes; [| lia |].
      * now rewrite array_view_nonneg.
      * intros i _. apply array_view_byte. now apply Hsys.
    + cbn in Hprep. now injection Hprep as <-.
Qed.

End CoreConstruction.

(** ** The further properties on the toy core *)

Section FurtherOnToyCore.
#[local] Existing Instance ToyCore.toy.

Example convert_prefix_on_bytes :
  length (convertFramebufferRGB555toRGB565 [255; 127; 1; 2] [9; 9; 9; 9; 9; 9] 1)
    = length [9; 9; 9; 9; 9; 9] /\
  convertFramebufferRGB555toRGB565 [255; 127; 1; 2] [9; 9; 9; 9; 9; 9] 1
    !! 4%nat = [9; 9; 9; 9; 9; 9] !! 4%nat.
Proof.
  destruct (convert_framebuffer_writes_prefix
              [255; 127; 1; 2] [9; 9; 9; 9; 9; 9] 1)
    as (Hlen & _ & Hrest & _); [cbn; lia |].
  split; [exact Hlen | apply Hrest; lia].
Defined.

(** The same conversion, evaluated: white, and the untouched tail. *)
Example convert_prefix_evaluated :
  convertFramebufferRGB555toRGB565 [255; 127; 1; 2] [9; 9; 9; 9; 9; 9] 1 =
  [255; 255; 9; 9; 9; 9].
Proof. reflexivity. Qed.

Example runFrame_framebuffer_on_toy :
  AndroidEmulator.getFramebuffer (AndroidEmulator.runFrame 5 ToyCore.ready)
    !! (2 * 7)%nat =
    Some (convert_pixel
            (load16 (GetPicture (RunFrame (Core := ToyCore.toy) ToyCore.built_by_wrapper)) 7) mod 256) /\
  AndroidEmulator.getFramebuffer (AndroidEmulator.runFrame 5 ToyCore.ready)
    !! (2 * 7 + 1)%nat =
    Some (convert_pixel
            (load16 (GetPicture (RunFrame (Core := ToyCore.toy) ToyCore.built_by_wrapper)) 7) / 256).
Proof.
  apply (proj1 (runFrame_overwrites_framebuffer (core := ToyCore.toy)
                  5 ToyCore.ready ToyCore.built_by_wrapper
                  eq_refl eq_refl ltac:(vm_compute; reflexivity))).
  apply Nat.ltb_lt. vm_compute. reflexivity.
Defined.

Example runFrame_audio_on_toy :
  AndroidEmulator.getAudioSampleCount (AndroidEmulator.runFrame 5 ToyCore.ready)
  = Z.of_nat (length (GetAudio (RunFrame (Core := ToyCore.toy) ToyCore.built_by_wrapper))).
Proof.
  apply (runFrame_audio_bits_unchanged (core := ToyCore.toy)
           5 ToyCore.ready ToyCore.built_by_wrapper eq_refl eq_refl).
  repeat (constructor;
          [split; [apply Z.leb_le | apply Z.ltb_lt]; reflexivity |]).
  constructor.
Defined.

(** Three frames, the third a second after construction: 3.0f. *)
Example fps_counts_on_toy :
  AndroidEmulator.getFPS
    (AndroidEmulator.runFrame 1000000000
       (AndroidEmulator.runFrames [1; 2] ToyCore.ready)) = F32.of_Z 3.
Proof.
  rewrite (proj1 (fps_counts_frames_of_the_window (core := ToyCore.toy)
                    [1; 2] 1000000000 ToyCore.ready ToyCore.built_by_wrapper
                    eq_refl eq_refl
                    ltac:(repeat (constructor; [apply Z.ltb_lt; reflexivity |]);
                          constructor)
                    ltac:(apply Z.leb_le; reflexivity)
                    ltac:(apply Z.leb_le; reflexivity)
                    ltac:(apply Z.leb_le; reflexivity))).
  vm_compute. reflexivity.
Defined.

Example fps_threshold_on_toy :
  AndroidEmulator.fpsUpdateTime_
    (AndroidEmulator.updateFPS 999999999 ToyCore.ready) =
  AndroidEmulator.fpsUpdateTime_ ToyCore.ready.
Proof.
  destruct (fps_threshold_in_ticks (core := ToyCore.toy) 999999999 ToyCore.ready)
    as (_ & _ & Hkeep);
    [split; [apply Z.leb_le | apply Z.ltb_lt]; reflexivity |].
  apply Hkeep. apply Z.ltb_lt. reflexivity.
Defined.

Example initialize_keeps_pause_on_toy :
  AndroidEmulator.isPaused
    (AndroidEmulator.with_core (core := ToyCore.toy) ToyCore.built_by_wrapper
       (AndroidEmulator.pause (AndroidEmulator.new 0))) =
  AndroidEmulator.isPaused (AndroidEmulator.pause (AndroidEmulator.new 0)).
Proof.
  destruct (initialize_all_or_nothing (core := ToyCore.toy)
              None 0 (Some ToyCore.zero_bytes) 4096 NTSC
              (AndroidEmulator.pause (AndroidEmulator.new 0)) true
              (AndroidEmulator.with_core (core := ToyCore.toy) ToyCore.built_by_wrapper
                 (AndroidEmulator.pause (AndroidEmulator.new 0)))
              eq_refl) as [_ Hyes].
  destruct (Hyes eq_refl) as (rb & v & _ & _ & _ & _ & _ & Hp & _).
  exact Hp.
Defined.

Example without_core_on_toy :
  AndroidEmulator.run
    [AndroidEmulator.CallPause; AndroidEmulator.CallRunFrame 7;
     AndroidEmulator.CallReset] (AndroidEmulator.new 0) =
  AndroidEmulator.set_paused
    (last_pause_flag
       [AndroidEmulator.CallPause; AndroidEmulator.CallRunFrame 7;
        AndroidEmulator.CallReset] false)
    (AndroidEmulator.new 0).
Proof.
  apply (wrapper_without_core_is_pristine (core := ToyCore.toy) 0
           [AndroidEmulator.CallPause; AndroidEmulator.CallRunFrame 7;
            AndroidEmulator.CallReset]).
  reflexivity.
Defined.

(** C7 fails on the wrapper class: on a newly constructed instance, which
    holds no core, [pause] changes the state (the pause flag goes from
    false to true), so that the [runFrame] after a later [initialize]
    is skipped; and [getFramebuffer] hands out 153600 bytes, not an
    empty or null result. *)
Lemma pause_without_core_changes_state :
  AndroidEmulator.emulator_ (AndroidEmulator.new 0) = None /\
  AndroidEmulator.pause (AndroidEmulator.new 0) <> AndroidEmulator.new 0 /\
  AndroidEmulator.isPaused (AndroidEmulator.new 0) = false /\
  AndroidEmulator.isPaused (AndroidEmulator.pause (AndroidEmulator.new 0))
    = true /\
  AndroidEmulator.frames_stepped
    [ToyCore.init_call; AndroidEmulator.CallRunFrame 1]
    (AndroidEmulator.new 0) = 1%nat /\
  AndroidEmulator.frames_stepped
    [ToyCore.init_call; AndroidEmulator.CallRunFrame 1]
    (AndroidEmulator.pause (AndroidEmulator.new 0)) = 0%nat /\
  AndroidEmulator.getFramebufferSize (AndroidEmulator.new 0) = 153600 /\
  AndroidEmulator.getFramebuffer (AndroidEmulator.new 0) <> [].
Proof.
  split; [reflexivity |].
  split.
  { intros Heq. apply (f_equal AndroidEmulator.paused_) in Heq.
    discriminate Heq. }
  split; [reflexivity |].
  split; [reflexivity |].
  split; [reflexivity |].
  split; [reflexivity |].
  split; [apply new_fb_length |].
  intros Heq. apply (f_equal length) in Heq.
  unfold AndroidEmulator.getFramebuffer, AndroidEmulator.new in Heq.
  cbn [AndroidEmulator.framebuffer_] in Heq.
  rewrite length_replicate in Heq. cbn [length] in Heq.
  assert (H : Z.of_nat (Z.to_nat FRAMEBUFFER_SIZE) = Z.of_nat 0)
    by now rewrite Heq.
  rewrite Z2Nat.id in H by (apply Z.leb_le; reflexivity).
  discriminate H.
Qed.

Example missing_instance_on_toy :
  Jni.nativeRunFrame Jni.initial = Jni.initial /\
  Jni.nativeGetFrameBuffer ToyCore.env Jni.initial = None /\
  Jni.nativeGetAudioSamples ToyCore.env Jni.initial = None /\
  AndroidEmulator.reset (AndroidEmulator.new 0) = AndroidEmulator.new 0 /\
  AndroidEmulator.isPaused (AndroidEmulator.pause (AndroidEmulator.new 0))
    = true /\
  AndroidEmulator.getFramebufferSize
    (AndroidEmulator.run
       [AndroidEmulator.CallPause; AndroidEmulator.CallRunFrame 7;
        AndroidEmulator.CallUpdateInput
          (ControllerInput.mk true false false false false false false false
             5 (-5));
        AndroidEmulator.CallReset]
       (AndroidEmulator.new 0)) = 153600.
Proof.
  destruct (missing_instance_behaviour (core := ToyCore.toy))
    as (Hjni & Hwrapper & Hgetters).
  destruct (Hjni Jni.initial eq_refl) as (Hrun & Hfb & Hau & _).
  destruct (Hwrapper (AndroidEmulator.new 0) eq_refl)
    as (_ & _ & Hreset & _ & _ & _ & _ & Hpause & _).
  destruct (Hgetters 0
              [AndroidEmulator.CallPause; AndroidEmulator.CallRunFrame 7;
               AndroidEmulator.CallUpdateInput
                 (ControllerInput.mk true false false false false false false
                    false 5 (-5));
               AndroidEmulator.CallReset] eq_refl) as (Hsize & _).
  split; [exact Hrun |]. split; [apply Hfb |]. split; [apply Hau |].
  split; [exact Hreset |]. split; [exact Hpause |]. exact Hsize.
Defined.

Example nativeGetFrameBuffer_on_toy :
  Jni.nativeGetFrameBuffer ToyCore.env ToyCore.running =
  Some (GetPicture (Core := ToyCore.toy) ToyCore.built).
Proof.
  apply (nativeGetFrameBuffer_verbatim (core := ToyCore.toy)
           ToyCore.env ToyCore.running ToyCore.built eq_refl).
  - apply Z.leb_le. vm_compute. reflexivity.
  - reflexivity.
Defined.

Example nativeRunFrame_thrice_on_toy :
  Nat.iter 3 Jni.nativeRunFrame ToyCore.running =
  Jni.mkState (Some (Nat.iter 3 (RunFrame (Core := ToyCore.toy)) ToyCore.built))
              (Jni.frame_counter ToyCore.running + Z.of_nat 3).
Proof.
  apply (nativeRunFrame_steps_n_times (core := ToyCore.toy)
           3 ToyCore.running ToyCore.built eq_refl);
    apply Z.leb_le; reflexivity.
Defined.

(** Three bytes copied: the third is read back, the fourth is padding. *)
Example memcpy_rom_on_three_bytes :
  rom_byte (memcpy_rom zero_rom (array_view [1; 2; 3]) 3) 2 = 3 /\
  rom_byte (memcpy_rom zero_rom (array_view [1; 2; 3]) 3) 3 = 0.
Proof.
  assert (Hsrc : forall i, 0 <= i < 3 -> 0 <= array_view [1; 2; 3] i < 256).
  { intros i Hi.
    assert (Hcases : i = 0 \/ i = 1 \/ i = 2) by lia.
    destruct Hcases as [-> | [-> | ->]]; cbv; split; congruence. }
  split.
  - exact (memcpy_rom_bytes (array_view [1; 2; 3]) 3 2 ltac:(lia) Hsrc).
  - exact (memcpy_rom_bytes (array_view [1; 2; 3]) 3 3 ltac:(lia) Hsrc).
Defined.

Example runFrames_on_toy :
  AndroidEmulator.emulator_ (AndroidEmulator.runFrames [1; 2] ToyCore.ready) =
  Some (Nat.iter (length [1; 2]) (RunFrame (Core := ToyCore.toy))
          ToyCore.built_by_wrapper).
Proof.
  apply (runFrames_show_latest_frame (core := ToyCore.toy)
           [1; 2] ToyCore.ready ToyCore.built_by_wrapper eq_refl eq_refl).
  vm_compute. reflexivity.
Defined.

Example nativeInit_construction_on_toy :
  exists sysrom_data cartrom_data v,
    construct (Core := ToyCore.toy) (Some sysrom_data) cartrom_data STANDARD
      None 0xe true NTSC = Some v /\
    sysrom_data = dummy_sysrom /\
    rom_byte cartrom_data 4095 = 0.
Proof.
  destruct (nativeInit_constructs_from_inputs (core := ToyCore.toy)
              None ToyCore.cart4096 4096 false Jni.initial
              (Jni.mkState (core := ToyCore.toy)
                 (Some (Reset (Core := ToyCore.toy) ToyCore.built)) 0))
    as (sd & cd & v & Hc & _ & _ & Hcart & Hsys).
  - apply Forall_replicate. split; [apply Z.leb_le | apply Z.ltb_lt]; reflexivity.
  - intros sys_bytes Hnone. discriminate Hnone.
  - reflexivity.
  - exists sd, cd, v. split; [exact Hc |]. split; [exact Hsys |].
    rewrite Hcart by (apply Z.leb_le; reflexivity). reflexivity.
Defined.

End FurtherOnToyCore.
